(** * ProseGenerator: the intake conversation, the parameter editor and the
      generation cycle of the React front end (App.js), as a shallow embedding.

    The embedding follows the version of the component that has the
    parameters panel and the character colours; the earlier version of the
    same file has the same conversation and generation code without them.

    The component keeps its whole session in [useState] hooks.  The embedding
    gathers the hooks in one record [State]; an event handler is a function
    that reads the values captured by the render in which it was created (the
    argument [st]) and applies its queued updates in order.  A functional
    update [setX(prev => f prev)] is written [setX_fn f]; a plain
    [setX(v)] is written [setX v].  Events are handled one at a time, each
    on the state that the previous one left; the only suspension point is
    the [await] of the generation call, which splits [handleSend] in two.

    Strings are byte strings that hold UTF-8 text.  [trim] strips, at both
    ends, the encodings of the code points that JavaScript counts as white
    space or line terminator (U+0009 to U+000D, U+0020, U+00A0, U+1680,
    U+2000 to U+200A, U+2028, U+2029, U+202F, U+205F, U+3000, U+FEFF); in
    UTF-8 none of these encodings can begin or end inside another code point.
    [toLowerCase] folds the ASCII capitals; the component only compares its
    result with "yes" and "start over", and no character outside ASCII
    lower-cases to a letter of these words. *)

From Stdlib Require Import ZArith QArith Ascii String DecimalString.
From stdpp Require Import base option list strings gmap.

Local Open Scope string_scope.
Local Open Scope list_scope.

(** ** String primitives *)

Module JsString.

(** The white space and line terminator code points of JavaScript, as their
    UTF-8 encodings. *)

(** One byte: U+0009 to U+000D and U+0020. *)
Definition isWhiteSpace1 (c1 : ascii) : bool :=
  let n := nat_of_ascii c1 in
  ((9 <=? n)%nat && (n <=? 13)%nat) || (n =? 32)%nat.

(** Two bytes: U+00A0. *)
Definition isWhiteSpace2 (c1 c2 : ascii) : bool :=
  (nat_of_ascii c1 =? 194)%nat && (nat_of_ascii c2 =? 160)%nat.

(** Three bytes: U+1680, U+2000 to U+200A, U+2028, U+2029, U+202F, U+205F,
    U+3000 and U+FEFF. *)
Definition isWhiteSpace3 (c1 c2 c3 : ascii) : bool :=
  let a := nat_of_ascii c1 in
  let b := nat_of_ascii c2 in
  let c := nat_of_ascii c3 in
  ((a =? 225) && (b =? 154) && (c =? 128))%nat
  || ((a =? 226) && (b =? 128)
      && (((128 <=? c) && (c <=? 138)) || (c =? 168) || (c =? 169) || (c =? 175)))%nat
  || ((a =? 226) && (b =? 129) && (c =? 159))%nat
  || ((a =? 227) && (b =? 128) && (c =? 128))%nat
  || ((a =? 239) && (b =? 187) && (c =? 191))%nat.

Fixpoint trimStart (s : string) : string :=
  match s with
  | EmptyString => EmptyString
  | String c1 s1 =>
      if isWhiteSpace1 c1 then trimStart s1 else
      match s1 with
      | EmptyString => s
      | String c2 s2 =>
          if isWhiteSpace2 c1 c2 then trimStart s2 else
          match s2 with
          | EmptyString => s
          | String c3 s3 =>
              if isWhiteSpace3 c1 c2 c3 then trimStart s3 else s
          end
      end
  end.

(** [!s] on a string: the empty string is the only falsy one. *)
Definition isEmpty (s : string) : bool :=
  match s with EmptyString => true | _ => false end.

(** A string of white space only: nothing is left once the leading white
    space is stripped. *)
Definition allWhiteSpace (s : string) : bool := isEmpty (trimStart s).

(** The longest suffix of white space is cut: the string ends where the rest
    is white space only. *)
Fixpoint trimEnd (s : string) : string :=
  match s with
  | EmptyString => EmptyString
  | String c s' => if allWhiteSpace s then EmptyString else String c (trimEnd s')
  end.

Definition trim (s : string) : string := trimEnd (trimStart s).

Definition lowerChar (c : ascii) : ascii :=
  let n := nat_of_ascii c in
  if ((65 <=? n)%nat && (n <=? 90)%nat) then ascii_of_nat (n + 32) else c.

Fixpoint toLowerCase (s : string) : string :=
  match s with
  | EmptyString => EmptyString
  | String c s' => String (lowerChar c) (toLowerCase s')
  end.

Definition nl : string := String (ascii_of_nat 10) EmptyString.

(** [Array.prototype.join]. *)
Fixpoint join (sep : string) (l : list string) : string :=
  match l with
  | [] => ""
  | [x] => x
  | x :: rest => x +:+ sep +:+ join sep rest
  end.

(** A non-negative integer in a template literal. *)
Definition ofNat (n : nat) : string := NilEmpty.string_of_uint (Nat.to_uint n).

End JsString.
Import JsString.

(** ** Data *)

Inductive Sender := bot | user.

Record Message := mkMessage { sender : Sender; text : string }.

Record Character := mkCharacter {
  name : string;
  description : string;
  color : string
}.

Record StoryData := mkData {
  beats : list string;
  characters : list Character;
  setting : string;
  genre : string;
  style : string
}.

(** The [STEPS] object.  A property that the object does not have reads as
    [undefined], here [None]; so a step value is an [option nat]. *)
Definition StepValue := option nat.

Definition STEPS : gmap string nat :=
  list_to_map
    [ ("BEAT", 0); ("BEAT_CONFIRM", 1); ("CHARACTER_NAME", 2);
      ("CHARACTER_DESCRIPTION", 3); ("SETTING", 4); ("GENRE", 5);
      ("STYLE", 6); ("CONFIRM", 7); ("GENERATE", 8); ("EXTEND", 9) ].

Definition characterColors : list string :=
  [ "#f44336"; "#4caf50"; "#2196f3"; "#ff9800"; "#9c27b0" ].

(** Values the generation service may answer with, and what [generatedStory]
    may therefore hold: [result.prose_output] is stored unchecked. *)
#[warnings="-register-all"]
Inductive Json :=
| JNull
| JBool (b : bool)
| JNumber (q : Q)
| JString (s : string)
| JArray (items : list Json)
| JObject (members : list (string * Json)).

Inductive JsValue := Undefined | Value (j : Json).

Inductive LayoutMode := both | chatOnly | storyOnly.

Record State := mkState {
  step : StepValue;
  data : StoryData;
  currentCharName : string;
  editingSetting : bool;
  editingGenre : bool;
  editingStyle : bool;
  tempSetting : string;
  tempGenre : string;
  tempStyle : string;
  newBeat : string;
  showNewBeatInput : bool;
  newCharacterName : string;
  newCharacterDesc : string;
  showNewCharacterInput : bool;
  messages : list Message;
  currentPrompt : string;
  userInput : string;
  generatedStory : JsValue;
  temperature : Q;
  desiredLength : Z;
  layoutMode : LayoutMode;
  loading : bool
}.

(** The state setters of the hooks, in their plain form [setX(v)]. *)

Definition setStep (v : StepValue) (s : State) : State :=
  mkState v (data s) (currentCharName s) (editingSetting s) (editingGenre s)
    (editingStyle s) (tempSetting s) (tempGenre s) (tempStyle s) (newBeat s)
    (showNewBeatInput s) (newCharacterName s) (newCharacterDesc s)
    (showNewCharacterInput s) (messages s) (currentPrompt s) (userInput s)
    (generatedStory s) (temperature s) (desiredLength s) (layoutMode s)
    (loading s).

Definition setData (v : StoryData) (s : State) : State :=
  mkState (step s) v (currentCharName s) (editingSetting s) (editingGenre s)
    (editingStyle s) (tempSetting s) (tempGenre s) (tempStyle s) (newBeat s)
    (showNewBeatInput s) (newCharacterName s) (newCharacterDesc s)
    (showNewCharacterInput s) (messages s) (currentPrompt s) (userInput s)
    (generatedStory s) (temperature s) (desiredLength s) (layoutMode s)
    (loading s).

Definition setCurrentCharName (v : string) (s : State) : State :=
  mkState (step s) (data s) v (editingSetting s) (editingGenre s)
    (editingStyle s) (tempSetting s) (tempGenre s) (tempStyle s) (newBeat s)
    (showNewBeatInput s) (newCharacterName s) (newCharacterDesc s)
    (showNewCharacterInput s) (messages s) (currentPrompt s) (userInput s)
    (generatedStory s) (temperature s) (desiredLength s) (layoutMode s)
    (loading s).

Definition setEditingSetting (v : bool) (s : State) : State :=
  mkState (step s) (data s) (currentCharName s) v (editingGenre s)
    (editingStyle s) (tempSetting s) (tempGenre s) (tempStyle s) (newBeat s)
    (showNewBeatInput s) (newCharacterName s) (newCharacterDesc s)
    (showNewCharacterInput s) (messages s) (currentPrompt s) (userInput s)
    (generatedStory s) (temperature s) (desiredLength s) (layoutMode s)
    (loading s).

Definition setEditingGenre (v : bool) (s : State) : State :=
  mkState (step s) (data s) (currentCharName s) (editingSetting s) v
    (editingStyle s) (tempSetting s) (tempGenre s) (tempStyle s) (newBeat s)
    (showNewBeatInput s) (newCharacterName s) (newCharacterDesc s)
    (showNewCharacterInput s) (messages s) (currentPrompt s) (userInput s)
    (generatedStory s) (temperature s) (desiredLength s) (layoutMode s)
    (loading s).

Definition setEditingStyle (v : bool) (s : State) : State :=
  mkState (step s) (data s) (currentCharName s) (editingSetting s)
    (editingGenre s) v (tempSetting s) (tempGenre s) (tempStyle s)
    (newBeat s) (showNewBeatInput s) (newCharacterName s)
    (newCharacterDesc s) (showNewCharacterInput s) (messages s)
    (currentPrompt s) (userInput s) (generatedStory s) (temperature s)
    (desiredLength s) (layoutMode s) (loading s).

Definition setTempSetting (v : string) (s : State) : State :=
  mkState (step s) (data s) (currentCharName s) (editingSetting s)
    (editingGenre s) (editingStyle s) v (tempGenre s) (tempStyle s)
    (newBeat s) (showNewBeatInput s) (newCharacterName s)
    (newCharacterDesc s) (showNewCharacterInput s) (messages s)
    (currentPrompt s) (userInput s) (generatedStory s) (temperature s)
    (desiredLength s) (layoutMode s) (loading s).

Definition setTempGenre (v : string) (s : State) : State :=
  mkState (step s) (data s) (currentCharName s) (editingSetting s)
    (editingGenre s) (editingStyle s) (tempSetting s) v (tempStyle s)
    (newBeat s) (showNewBeatInput s) (newCharacterName s)
    (newCharacterDesc s) (showNewCharacterInput s) (messages s)
    (currentPrompt s) (userInput s) (generatedStory s) (temperature s)
    (desiredLength s) (layoutMode s) (loading s).

Definition setTempStyle (v : string) (s : State) : State :=
  mkState (step s) (data s) (currentCharName s) (editingSetting s)
    (editingGenre s) (editingStyle s) (tempSetting s) (tempGenre s) v
    (newBeat s) (showNewBeatInput s) (newCharacterName s)
    (newCharacterDesc s) (showNewCharacterInput s) (messages s)
    (currentPrompt s) (userInput s) (generatedStory s) (temperature s)
    (desiredLength s) (layoutMode s) (loading s).

Definition setNewBeat (v : string) (s : State) : State :=
  mkState (step s) (data s) (currentCharName s) (editingSetting s)
    (editingGenre s) (editingStyle s) (tempSetting s) (tempGenre s)
    (tempStyle s) v (showNewBeatInput s) (newCharacterName s)
    (newCharacterDesc s) (showNewCharacterInput s) (messages s)
    (currentPrompt s) (userInput s) (generatedStory s) (temperature s)
    (desiredLength s) (layoutMode s) (loading s).

Definition setShowNewBeatInput (v : bool) (s : State) : State :=
  mkState (step s) (data s) (currentCharName s) (editingSetting s)
    (editingGenre s) (editingStyle s) (tempSetting s) (tempGenre s)
    (tempStyle s) (newBeat s) v (newCharacterName s) (newCharacterDesc s)
    (showNewCharacterInput s) (messages s) (currentPrompt s) (userInput s)
    (generatedStory s) (temperature s) (desiredLength s) (layoutMode s)
    (loading s).

Definition setNewCharacterName (v : string) (s : State) : State :=
  mkState (step s) (data s) (currentCharName s) (editingSetting s)
    (editingGenre s) (editingStyle s) (tempSetting s) (tempGenre s)
    (tempStyle s) (newBeat s) (showNewBeatInput s) v (newCharacterDesc s)
    (showNewCharacterInput s) (messages s) (currentPrompt s) (userInput s)
    (generatedStory s) (temperature s) (desiredLength s) (layoutMode s)
    (loading s).

Definition setNewCharacterDesc (v : string) (s : State) : State :=
  mkState (step s) (data s) (currentCharName s) (editingSetting s)
    (editingGenre s) (editingStyle s) (tempSetting s) (tempGenre s)
    (tempStyle s) (newBeat s) (showNewBeatInput s) (newCharacterName s) v
    (showNewCharacterInput s) (messages s) (currentPrompt s) (userInput s)
    (generatedStory s) (temperature s) (desiredLength s) (layoutMode s)
    (loading s).

Definition setShowNewCharacterInput (v : bool) (s : State) : State :=
  mkState (step s) (data s) (currentCharName s) (editingSetting s)
    (editingGenre s) (editingStyle s) (tempSetting s) (tempGenre s)
    (tempStyle s) (newBeat s) (showNewBeatInput s) (newCharacterName s)
    (newCharacterDesc s) v (messages s) (currentPrompt s) (userInput s)
    (generatedStory s) (temperature s) (desiredLength s) (layoutMode s)
    (loading s).

Definition setMessages (v : list Message) (s : State) : State :=
  mkState (step s) (data s) (currentCharName s) (editingSetting s)
    (editingGenre s) (editingStyle s) (tempSetting s) (tempGenre s)
    (tempStyle s) (newBeat s) (showNewBeatInput s) (newCharacterName s)
    (newCharacterDesc s) (showNewCharacterInput s) v (currentPrompt s)
    (userInput s) (generatedStory s) (temperature s) (desiredLength s)
    (layoutMode s) (loading s).

Definition setCurrentPrompt (v : string) (s : State) : State :=
  mkState (step s) (data s) (currentCharName s) (editingSetting s)
    (editingGenre s) (editingStyle s) (tempSetting s) (tempGenre s)
    (tempStyle s) (newBeat s) (showNewBeatInput s) (newCharacterName s)
    (newCharacterDesc s) (showNewCharacterInput s) (messages s) v
    (userInput s) (generatedStory s) (temperature s) (desiredLength s)
    (layoutMode s) (loading s).

Definition setUserInput (v : string) (s : State) : State :=
  mkState (step s) (data s) (currentCharName s) (editingSetting s)
    (editingGenre s) (editingStyle s) (tempSetting s) (tempGenre s)
    (tempStyle s) (newBeat s) (showNewBeatInput s) (newCharacterName s)
    (newCharacterDesc s) (showNewCharacterInput s) (messages s)
    (currentPrompt s) v (generatedStory s) (temperature s) (desiredLength s)
    (layoutMode s) (loading s).

Definition setGeneratedStory (v : JsValue) (s : State) : State :=
  mkState (step s) (data s) (currentCharName s) (editingSetting s)
    (editingGenre s) (editingStyle s) (tempSetting s) (tempGenre s)
    (tempStyle s) (newBeat s) (showNewBeatInput s) (newCharacterName s)
    (newCharacterDesc s) (showNewCharacterInput s) (messages s)
    (currentPrompt s) (userInput s) v (temperature s) (desiredLength s)
    (layoutMode s) (loading s).

Definition setTemperature (v : Q) (s : State) : State :=
  mkState (step s) (data s) (currentCharName s) (editingSetting s)
    (editingGenre s) (editingStyle s) (tempSetting s) (tempGenre s)
    (tempStyle s) (newBeat s) (showNewBeatInput s) (newCharacterName s)
    (newCharacterDesc s) (showNewCharacterInput s) (messages s)
    (currentPrompt s) (userInput s) (generatedStory s) v (desiredLength s)
    (layoutMode s) (loading s).

Definition setDesiredLength (v : Z) (s : State) : State :=
  mkState (step s) (data s) (currentCharName s) (editingSetting s)
    (editingGenre s) (editingStyle s) (tempSetting s) (tempGenre s)
    (tempStyle s) (newBeat s) (showNewBeatInput s) (newCharacterName s)
    (newCharacterDesc s) (showNewCharacterInput s) (messages s)
    (currentPrompt s) (userInput s) (generatedStory s) (temperature s) v
    (layoutMode s) (loading s).

Definition setLayoutMode (v : LayoutMode) (s : State) : State :=
  mkState (step s) (data s) (currentCharName s) (editingSetting s)
    (editingGenre s) (editingStyle s) (tempSetting s) (tempGenre s)
    (tempStyle s) (newBeat s) (showNewBeatInput s) (newCharacterName s)
    (newCharacterDesc s) (showNewCharacterInput s) (messages s)
    (currentPrompt s) (userInput s) (generatedStory s) (temperature s)
    (desiredLength s) v (loading s).

Definition setLoading (v : bool) (s : State) : State :=
  mkState (step s) (data s) (currentCharName s) (editingSetting s)
    (editingGenre s) (editingStyle s) (tempSetting s) (tempGenre s)
    (tempStyle s) (newBeat s) (showNewBeatInput s) (newCharacterName s)
    (newCharacterDesc s) (showNewCharacterInput s) (messages s)
    (currentPrompt s) (userInput s) (generatedStory s) (temperature s)
    (desiredLength s) (layoutMode s) v.

(** The functional form [setX(prev => f prev)] of the setters that the
    component uses that way. *)
Definition setData_fn (f : StoryData -> StoryData) (s : State) : State :=
  setData (f (data s)) s.

Definition setMessages_fn (f : list Message -> list Message) (s : State) : State :=
  setMessages (f (messages s)) s.

Definition setLayoutMode_fn (f : LayoutMode -> LayoutMode) (s : State) : State :=
  setLayoutMode (f (layoutMode s)) s.

Definition setEditingSetting_fn (f : bool -> bool) (s : State) : State :=
  setEditingSetting (f (editingSetting s)) s.

Definition setEditingGenre_fn (f : bool -> bool) (s : State) : State :=
  setEditingGenre (f (editingGenre s)) s.

Definition setEditingStyle_fn (f : bool -> bool) (s : State) : State :=
  setEditingStyle (f (editingStyle s)) s.

(** Object spreads [{ ...prev, field: v }] over the parameters. *)
Definition withBeats (prev : StoryData) (v : list string) : StoryData :=
  mkData v (characters prev) (setting prev) (genre prev) (style prev).

Definition withCharacters (prev : StoryData) (v : list Character) : StoryData :=
  mkData (beats prev) v (setting prev) (genre prev) (style prev).

Definition withSetting (prev : StoryData) (v : string) : StoryData :=
  mkData (beats prev) (characters prev) v (genre prev) (style prev).

Definition withGenre (prev : StoryData) (v : string) : StoryData :=
  mkData (beats prev) (characters prev) (setting prev) v (style prev).

Definition withStyle (prev : StoryData) (v : string) : StoryData :=
  mkData (beats prev) (characters prev) (setting prev) (genre prev) v.

(** [Array.prototype.filter] with the two-argument callback [(x, i) => ...];
    the index runs over 0, 1, 2, ... and is compared with a number that the
    caller chooses freely, so it is an integer here. *)
Fixpoint filterFrom {A : Type} (p : A -> Z -> bool) (i : Z) (l : list A) : list A :=
  match l with
  | [] => []
  | x :: rest =>
      if p x i then x :: filterFrom p (i + 1) rest else filterFrom p (i + 1) rest
  end.

Definition filterIndexed {A : Type} (p : A -> Z -> bool) (l : list A) : list A :=
  filterFrom p 0 l.

(** ** Initial values *)

Definition initialMessage : string :=
  "Welcome! I'm ProseGenerator – an AI-powered creative writing assistant built with React, Material‑UI, FastAPI, OpenAI GPT‑4, and Pinecone."
  +:+ nl +:+
  "I use advanced NLP, Retrieval-Augmented Generation (RAG) techniques, and a pre-built vector database (Pinecone) to transform your story beats into a narrative."
  +:+ nl +:+
  "(For your information, data ingestion (embedding BookSum) has already been completed and stored in Pinecone.)"
  +:+ nl +:+
  "Let's begin! Please enter your first Story Beat.".

Definition emptyData : StoryData := mkData [] [] "" "" "".

Definition initialState : State :=
  mkState (STEPS !! "BEAT") emptyData ""
    false false false "" "" ""
    "" false "" "" false
    [mkMessage bot initialMessage] "Type your message here..." ""
    (Value (JString "")) (7 # 10)%Q 1000%Z both false.

(** ** Parameter store: the handlers of the parameters panel *)

Definition removeCharacter (index : Z) (st : State) : State :=
  setData_fn (fun prevData =>
    withCharacters prevData
      (filterIndexed (fun _ i => negb (i =? index)%Z) (characters prevData))) st.

Definition removeBeat (index : Z) (st : State) : State :=
  setData_fn (fun prevData =>
    withBeats prevData
      (filterIndexed (fun _ i => negb (i =? index)%Z) (beats prevData))) st.

Definition toggleEdit (param : string) (st : State) : State :=
  if String.eqb param "setting" then
    let s := setTempSetting (setting (data st)) st in
    setEditingSetting_fn negb s
  else if String.eqb param "genre" then
    let s := setTempGenre (genre (data st)) st in
    setEditingGenre_fn negb s
  else if String.eqb param "style" then
    let s := setTempStyle (style (data st)) st in
    setEditingStyle_fn negb s
  else st.

Definition saveEdit (param : string) (st : State) : State :=
  if String.eqb param "setting" then
    let s := setData_fn (fun prev => withSetting prev (tempSetting st)) st in
    setEditingSetting false s
  else if String.eqb param "genre" then
    let s := setData_fn (fun prev => withGenre prev (tempGenre st)) st in
    setEditingGenre false s
  else if String.eqb param "style" then
    let s := setData_fn (fun prev => withStyle prev (tempStyle st)) st in
    setEditingStyle false s
  else st.

Definition handleAddBeat (st : State) : State :=
  if negb (isEmpty (trim (newBeat st))) then
    let s := setData_fn (fun prev =>
               withBeats prev (beats prev ++ [trim (newBeat st)])) st in
    let s := setNewBeat "" s in
    setShowNewBeatInput false s
  else st.

Definition cancelNewBeat (st : State) : State :=
  setShowNewBeatInput false (setNewBeat "" st).

(** [characterColors[n % characterColors.length]]; the index is always in
    range, the default stands for the [undefined] of an empty palette. *)
Definition colorAt (n : nat) : string :=
  nth (n mod length characterColors) characterColors "".

Definition handleAddCharacter (st : State) : State :=
  if negb (isEmpty (trim (newCharacterName st)))
     && negb (isEmpty (trim (newCharacterDesc st))) then
    let newChar :=
      mkCharacter (trim (newCharacterName st)) (trim (newCharacterDesc st))
        (colorAt (length (characters (data st)))) in
    let s := setData_fn (fun prev =>
               withCharacters prev (characters prev ++ [newChar])) st in
    let s := setNewCharacterName "" s in
    let s := setNewCharacterDesc "" s in
    setShowNewCharacterInput false s
  else st.

Definition cancelNewCharacter (st : State) : State :=
  setShowNewCharacterInput false
    (setNewCharacterDesc "" (setNewCharacterName "" st)).

(** ** Generation service boundary *)

(** The body of the POST request. *)
Record Payload := mkPayload {
  p_beats : list string;
  p_characters : list Character;
  p_setting : string;
  p_genre : string;
  p_style : string;
  p_temperature : Q;
  approx_word_count : Z
}.

(** How [fetch] and then [res.json()] may settle.  [fetch] rejects on a
    network failure only; an answer with any status code resolves, and its
    body either parses as JSON or makes [res.json()] reject. *)
Inductive ResponseBody := NotJson | Parsed (j : Json).

Inductive FetchOutcome :=
| Rejected
| Responded (status : nat) (body : ResponseBody).

(** A member of a parsed object; of duplicate names the last one counts. *)
Fixpoint member (k : string) (ms : list (string * Json)) : option Json :=
  match ms with
  | [] => None
  | (k', v) :: rest =>
      match member k rest with
      | Some w => Some w
      | None => if String.eqb k k' then Some v else None
      end
  end.

(** [result.prose_output]: reading a property of [null] throws ([None]),
    an object gives the member or [undefined], any other value [undefined]. *)
Definition prose_output (result : Json) : option JsValue :=
  match result with
  | JNull => None
  | JObject ms =>
      Some (match member "prose_output" ms with
            | Some v => Value v
            | None => Undefined
            end)
  | _ => Some Undefined
  end.

(** ** Intake state machine *)

Definition say (t : string) (s : State) : State :=
  setMessages_fn (fun prev => prev ++ [mkMessage bot t]) s.

Definition echo (input : string) (s : State) : State :=
  setMessages_fn (fun prev => prev ++ [mkMessage user input]) s.

Definition startOver (s : State) : State :=
  let s := setStep (STEPS !! "BEAT") s in
  let s := setData emptyData s in
  let s := setCurrentCharName "" s in
  let s := setUserInput "" s in
  let s := setGeneratedStory (Value (JString "")) s in
  let s := setTemperature (7 # 10)%Q s in
  let s := setDesiredLength 1000%Z s in
  let s := setLayoutMode both s in
  let s := setMessages [mkMessage bot initialMessage] s in
  setCurrentPrompt "Type your message here..." s.

(** The summary shown at the STYLE step, built from the parameters the
    handler captured, that is from before its own [setData]. *)
Definition summaryText (d : StoryData) : string :=
  nl +:+ "All parameters saved." +:+ nl +:+ "Beats:" +:+ nl
  +:+ join nl (imap (fun idx beat => ofNat (idx + 1) +:+ ". " +:+ beat) (beats d))
  +:+ nl +:+ "Characters: " +:+ join ", " (map name (characters d))
  +:+ nl +:+ "Setting: " +:+ setting d
  +:+ nl +:+ "Genre: " +:+ genre d
  +:+ nl +:+ "Style: " +:+ style d
  +:+ nl +:+ nl +:+ "Generate your story? (yes/no)" +:+ nl +:+ "      ".

(** [generateStory] up to its [await fetch(...)]: the loading flag is raised
    and the request leaves with the parameters and controls that the handler
    captured ([st]); [s] is the state with the updates queued so far. *)
Definition generateStory_begin (st s : State) : State * Payload :=
  let s := setLoading true s in
  let payload :=
    mkPayload (beats (data st)) (characters (data st)) (setting (data st))
      (genre (data st)) (style (data st)) (temperature st) (desiredLength st) in
  (s, payload).

(** [generateStory] from the point where the call settles. *)
Definition generateStory_settle (o : FetchOutcome) (s : State) : State :=
  let failed (s : State) :=
    let s := say "Error generating story. Please try again or type 'start over'." s in
    setCurrentPrompt "" s in
  let s :=
    match o with
    | Rejected => failed s
    | Responded _ NotJson => failed s
    | Responded _ (Parsed result) =>
        match prose_output result with
        | None => failed s
        | Some v =>
            let s := setGeneratedStory v s in
            let s := say "Story generated. To view the full story, use the toggle button. Type 'start over' to reset." s in
            let s := setCurrentPrompt "Type your next input:" s in
            let s := setStep (STEPS !! "EXTEND") s in
            setLayoutMode both s
        end
    end in
  setLoading false s.

(** The settlements that end in the [catch] block: [fetch] rejected,
    [res.json()] rejected, or reading [prose_output] threw. *)
Definition caught (o : FetchOutcome) : Prop :=
  match o with
  | Rejected => True
  | Responded _ NotJson => True
  | Responded _ (Parsed result) => prose_output result = None
  end.

(** [handleSend] runs to completion, or up to the [await] of the generation
    call; in that case the second component is the request it has sent and
    [handleSend_resume] is the rest of the handler. *)
Definition handleSend (st : State) : State * option Payload :=
  let input := trim (userInput st) in
  if isEmpty input then (st, None) else
  let s := echo input st in
  if String.eqb (toLowerCase input) "start over" then (startOver s, None) else
  if decide (step st = STEPS !! "BEAT") then
    let s := setData_fn (fun prev => withBeats prev (beats prev ++ [input])) s in
    let s := say "Beat added. Do you want to add another beat? (yes/no)" s in
    let s := setCurrentPrompt "Do you want to add another beat? (yes/no)" s in
    let s := setStep (STEPS !! "BEAT_CONFIRM") s in
    (setUserInput "" s, None)
  else if decide (step st = STEPS !! "BEAT_CONFIRM") then
    if String.eqb (toLowerCase input) "yes" then
      let s := say "Please enter your next Story Beat:" s in
      let s := setCurrentPrompt "Enter your next Story Beat:" s in
      let s := setStep (STEPS !! "BEAT") s in
      (setUserInput "" s, None)
    else
      let s := say "Please enter the name of your first character:" s in
      let s := setCurrentPrompt "Enter character name:" s in
      let s := setStep (STEPS !! "CHARACTER_NAME") s in
      (setUserInput "" s, None)
  else if decide (step st = STEPS !! "CHARACTER_NAME") then
    let s := setCurrentCharName input s in
    let s := say "Now enter the character's description:" s in
    let s := setCurrentPrompt "Enter character description:" s in
    let s := setStep (STEPS !! "CHARACTER_DESCRIPTION") s in
    (setUserInput "" s, None)
  else if decide (step st = STEPS !! "CHARACTER_DESCRIPTION") then
    let s := setData_fn (fun prev =>
               let newChar :=
                 mkCharacter (currentCharName st) input
                   (colorAt (length (characters prev))) in
               withCharacters prev (characters prev ++ [newChar])) s in
    let s := say "Character saved. Do you want to add another character? (yes/no)" s in
    let s := setCurrentPrompt "Add another character? (yes/no)" s in
    let s := setStep (STEPS !! "CHARACTERS") s in
    (setUserInput "" s, None)
  else if decide (step st = STEPS !! "CHARACTERS") then
    if String.eqb (toLowerCase input) "yes" then
      let s := say "Please enter the name of your next character:" s in
      let s := setCurrentPrompt "Enter character name:" s in
      let s := setStep (STEPS !! "CHARACTER_NAME") s in
      (setUserInput "" s, None)
    else
      let s := say "Characters saved. Now, please enter the Setting of your story:" s in
      let s := setCurrentPrompt "Enter the Setting:" s in
      let s := setStep (STEPS !! "SETTING") s in
      (setUserInput "" s, None)
  else if decide (step st = STEPS !! "SETTING") then
    let s := setData_fn (fun prev => withSetting prev input) s in
    let s := say "Setting saved. Now, please enter the Genre:" s in
    let s := setCurrentPrompt "Enter the Genre:" s in
    let s := setStep (STEPS !! "GENRE") s in
    (setUserInput "" s, None)
  else if decide (step st = STEPS !! "GENRE") then
    let s := setData_fn (fun prev => withGenre prev input) s in
    let s := say "Genre saved. Now, please enter the desired Style:" s in
    let s := setCurrentPrompt "Enter the Style:" s in
    let s := setStep (STEPS !! "STYLE") s in
    (setUserInput "" s, None)
  else if decide (step st = STEPS !! "STYLE") then
    let s := setData_fn (fun prev => withStyle prev input) s in
    let s := say (summaryText (data st)) s in
    let s := setCurrentPrompt "Generate your story? (yes/no)" s in
    let s := setStep (STEPS !! "CONFIRM") s in
    (setUserInput "" s, None)
  else if decide (step st = STEPS !! "CONFIRM") then
    if String.eqb (toLowerCase input) "yes" then
      let s := say "Generating your story... Please wait." s in
      let s := setCurrentPrompt "Generating..." s in
      let s := setStep (STEPS !! "GENERATE") s in
      let '(s, payload) := generateStory_begin st s in
      (s, Some payload)
    else
      let s := say "Story generation cancelled. To try again, type 'start over'." s in
      let s := setCurrentPrompt "" s in
      (setUserInput "" s, None)
  else (setUserInput "" s, None).

Definition handleSend_resume (o : FetchOutcome) (s : State) : State :=
  setUserInput "" (generateStory_settle o s).

(** ** Presentation *)

Definition beforeGeneration (st : State) : bool :=
  match generatedStory st with
  | Value (JString "") => true
  | _ => false
  end.

Definition cycleLayoutMode (st : State) : State :=
  if beforeGeneration st then
    setLayoutMode_fn (fun prev => match prev with both => chatOnly | _ => both end) st
  else
    setLayoutMode_fn (fun prev => match prev with both => storyOnly | _ => both end) st.

Definition leftPanelWidth (st : State) : nat :=
  if beforeGeneration st then
    match layoutMode st with chatOnly => 12 | _ => 9 end
  else
    match layoutMode st with storyOnly => 0 | _ => 8 end.

Definition rightPanelWidth (st : State) : nat :=
  if beforeGeneration st then
    match layoutMode st with chatOnly => 0 | _ => 3 end
  else
    match layoutMode st with storyOnly => 12 | _ => 4 end.

Definition chatVisible (st : State) : bool :=
  if beforeGeneration st then true
  else match layoutMode st with storyOnly => false | _ => true end.

Definition rightVisible (st : State) : bool := (0 <? rightPanelWidth st)%nat.

(** The branch that the right panel takes when it is visible: the parameters
    or the story.  The story branch goes on to call [highlightStory], which
    builds a regular expression from each character name; that call is not
    part of the embedding, so [rightPanel] tells which branch is chosen and
    not what the story branch displays. *)
Inductive RightPanel := GenerationParameters | GeneratedStory.

Definition rightPanel (st : State) : option RightPanel :=
  if rightVisible st then
    Some (if beforeGeneration st then GenerationParameters else GeneratedStory)
  else None.

(** ** Sessions *)

(** What the user and the network can do to a mounted component.  Typing
    into a field and pressing its button are one event. *)
Inductive Event :=
| Submit (input : string)
| Settle (o : FetchOutcome)
| AddBeat (input : string)
| RemoveBeat (index : Z)
| AddCharacter (nameInput descInput : string)
| RemoveCharacter (index : Z)
| ToggleEdit (param : string)
| TypeEdit (param value : string)
| SaveEdit (param : string)
| CancelNewBeat
| CancelNewCharacter
| CycleLayout
| SlideTemperature (q : Q)
| SlideLength (n : Z).

(** The component together with the network: the calls not yet settled and
    every request sent so far. *)
Record Session := mkSession {
  ui : State;
  inFlight : nat;
  requests : list Payload
}.

Definition initialSession : Session := mkSession initialState 0 [].

Definition onUi (f : State -> State) (w : Session) : Session :=
  mkSession (f (ui w)) (inFlight w) (requests w).

Definition typeEdit (param value : string) (st : State) : State :=
  if String.eqb param "setting" then setTempSetting value st
  else if String.eqb param "genre" then setTempGenre value st
  else if String.eqb param "style" then setTempStyle value st
  else st.

Definition dispatch (e : Event) (w : Session) : Session :=
  match e with
  | Submit input =>
      match handleSend (setUserInput input (ui w)) with
      | (s, Some payload) => mkSession s (S (inFlight w)) (requests w ++ [payload])
      | (s, None) => mkSession s (inFlight w) (requests w)
      end
  | Settle o =>
      match inFlight w with
      | O => w
      | S n => mkSession (handleSend_resume o (ui w)) n (requests w)
      end
  | AddBeat input => onUi (fun st => handleAddBeat (setNewBeat input st)) w
  | RemoveBeat index => onUi (removeBeat index) w
  | AddCharacter n d =>
      onUi (fun st =>
        handleAddCharacter (setNewCharacterDesc d (setNewCharacterName n st))) w
  | RemoveCharacter index => onUi (removeCharacter index) w
  | ToggleEdit param => onUi (toggleEdit param) w
  | TypeEdit param value => onUi (typeEdit param value) w
  | SaveEdit param => onUi (saveEdit param) w
  | CancelNewBeat => onUi cancelNewBeat w
  | CancelNewCharacter => onUi cancelNewCharacter w
  | CycleLayout => onUi cycleLayoutMode w
  | SlideTemperature q => onUi (setTemperature q) w
  | SlideLength n => onUi (setDesiredLength n) w
  end.

Definition run (es : list Event) (w : Session) : Session :=
  foldl (fun w e => dispatch e w) w es.

(** ** Observations on sessions *)

(** The numbers that the [STEPS] object holds. *)
Definition enumerated (v : StepValue) : Prop :=
  exists k n, STEPS !! k = Some n /\ v = Some n.

Definition storyOf (w : Session) : StoryData := data (ui w).

(** An event adds a character when the list is one longer afterwards; the
    character it added is then the last one. *)
Definition addedBy (e : Event) (w : Session) : option Character :=
  let after := characters (storyOf (dispatch e w)) in
  if decide (length after = S (length (characters (storyOf w))))
  then last after else None.

(** The characters added in the course of a session, in the order of the
    adds. *)
Fixpoint addedLog (es : list Event) (w : Session) : list Character :=
  match es with
  | [] => []
  | e :: rest => option_list (addedBy e w) ++ addedLog rest (dispatch e w)
  end.

(** The reset command, as [handleSend] recognises it. *)
Definition isStartOver (input : string) : Prop :=
  toLowerCase (trim input) = "start over".

Definition isYes (input : string) : Prop :=
  toLowerCase (trim input) = "yes".

(** Events that neither remove a character nor reset the session. *)
Definition keepsCharacters (e : Event) : Prop :=
  match e with
  | RemoveCharacter _ => False
  | Submit input => ~ isStartOver input
  | _ => True
  end.

(** The editor operations that change the story parameters. *)
Definition editorOperation (e : Event) : bool :=
  match e with
  | AddBeat _ | RemoveBeat _ | AddCharacter _ _ | RemoveCharacter _
  | SaveEdit _ => true
  | _ => false
  end.

(** ** Beat operations and their specification *)

Inductive BeatOp :=
| OpAddBeat (input : string)
| OpRemoveBeat (index : Z).

Definition beatEvent (op : BeatOp) : Event :=
  match op with
  | OpAddBeat input => AddBeat input
  | OpRemoveBeat index => RemoveBeat index
  end.

(** Each operation runs at a step of its own: the conversation may have moved
    anywhere in between. *)
Definition runBeatOps (ops : list (StepValue * BeatOp)) (w : Session) : Session :=
  foldl (fun w '(v, op) => dispatch (beatEvent op) (onUi (setStep v) w)) w ops.

Module BeatSpec.

(** The specification keeps every beat that was ever added, in insertion
    order, with a mark that tells whether a removal has struck it. *)
Abbreviation Ledger := (list (string * bool)).

Definition record (input : string) (l : Ledger) : Ledger :=
  if isEmpty (trim input) then l else l ++ [(trim input, true)].

(** Strike the beat at position [index] among those still present; a
    position that is not there strikes nothing. *)
Fixpoint strike (index : Z) (l : Ledger) : Ledger :=
  match l with
  | [] => []
  | (b, false) :: rest => (b, false) :: strike index rest
  | (b, true) :: rest =>
      if (index =? 0)%Z then (b, false) :: rest
      else (b, true) :: strike (index - 1) rest
  end.

Definition apply (l : Ledger) (op : BeatOp) : Ledger :=
  match op with
  | OpAddBeat input => record input l
  | OpRemoveBeat index => strike index l
  end.

Definition ledger (ops : list BeatOp) : Ledger := foldl apply [] ops.

(** The added beats in insertion order. *)
Definition inserted (ops : list BeatOp) : list string :=
  omap (fun op =>
          match op with
          | OpAddBeat input =>
              if isEmpty (trim input) then None else Some (trim input)
          | OpRemoveBeat _ => None
          end) ops.

(** Insertion order with the removed beats excluded. *)
Definition remaining (l : Ledger) : list string :=
  map fst (filter (fun e => snd e = true) l).

End BeatSpec.

(** ** Further observations *)

(** A beat as the component stores it. *)
Definition storedBeat (b : string) : Prop := b <> "" /\ trim b = b.

(** The sessions that a user can reach from a freshly mounted component. *)
Definition reachable (w : Session) : Prop :=
  exists es, w = run es initialSession.

(** The step is a value of [STEPS] or the [undefined] of its missing key. *)
Definition knownStep (v : StepValue) : Prop := v = None \/ enumerated v.

(** The layout mode fits the phase: "chatOnly" belongs to the time before a
    story is shown, "storyOnly" to the time after. *)
Definition phaseConsistent (st : State) : Prop :=
  match layoutMode st with
  | both => True
  | chatOnly => beforeGeneration st = true
  | storyOnly => beforeGeneration st = false
  end.

(** The request that [generateStory] builds from a render of the component. *)
Definition payloadOf (st : State) : Payload :=
  mkPayload (beats (data st)) (characters (data st)) (setting (data st))
    (genre (data st)) (style (data st)) (temperature st) (desiredLength st).

(** The answer of the service that carries a story. *)
Definition storyAnswer (status : nat) (prose : string) : FetchOutcome :=
  Responded status (Parsed (JObject [("prose_output", JString prose)])).

(** Entering beats in the conversation: each beat, then "yes" to add
    another. *)
Definition beatLoop (bs : list string) : list Event :=
  flat_map (fun b => [Submit b; Submit "yes"]) bs.

(** An input that [handleSend] passes on to the branch of the current step. *)
Definition accepted (input : string) : Prop :=
  isEmpty (trim input) = false /\ ~ isStartOver input.

(** Every event but the reset command. *)
Definition notReset (e : Event) : Prop :=
  match e with
  | Submit input => ~ isStartOver input
  | _ => True
  end.

(** The fields of the parameters panel that hold text being typed or a flag
    of the panel. *)
Definition panelState (st : State) :=
  (editingSetting st, editingGenre st, editingStyle st,
   tempSetting st, tempGenre st, tempStyle st,
   newBeat st, showNewBeatInput st,
   newCharacterName st, newCharacterDesc st, showNewCharacterInput st).

(** ** Sample sessions *)

Definition linearPath (firstBeat : string) : list Event :=
  [ Submit firstBeat; Submit "no"; Submit "Ana"; Submit "A pilot"; Submit "no";
    Submit "A ship"; Submit "Sci-Fi"; Submit "Tense" ].

Definition atDescription : Session :=
  run [Submit "The ship leaves"; Submit "no"; Submit "Ana"] initialSession.

Definition atConfirm : Session :=
  run (linearPath "The ship leaves") initialSession.

Definition afterFailure : Session :=
  run [Submit "yes"; Settle Rejected] atConfirm.

Definition afterStory : Session :=
  run [Submit "yes";
       Settle (Responded 200 (Parsed (JObject [("prose_output", JString "Once.")])))]
    atConfirm.

(** Settles the [step === STEPS.X] tests once the step is known. *)
Ltac decide_steps :=
  repeat match goal with
  | |- context [decide (?a = ?b)] =>
      first [ rewrite (decide_True (P := a = b)) by (vm_compute; reflexivity)
            | rewrite (decide_False (P := a = b)) by (vm_compute; discriminate) ]
  end.

(** * Properties *)

(** ** Reading the [STEPS] table *)

Lemma STEPS_CHARACTERS : STEPS !! "CHARACTERS" = None.
Proof. reflexivity. Qed.

Lemma undefined_not_enumerated : ~ enumerated None.
Proof. intros (k & n & _ & H). discriminate H. Qed.

(** ** String facts used by the handlers *)

Lemma isEmpty_lower s : isEmpty (toLowerCase s) = isEmpty s.
Proof. destruct s; reflexivity. Qed.

Lemma command_not_empty s c :
  toLowerCase s = c -> isEmpty c = false -> isEmpty s = false.
Proof. intros <- H. rewrite isEmpty_lower in H. exact H. Qed.

Lemma run_cons (e : Event) (es : list Event) (w : Session) :
  run (e :: es) w = run es (dispatch e w).
Proof. reflexivity. Qed.

(** ** The branches of [handleSend] *)

Section Branches.
Variable st : State.

Lemma handleSend_ignored :
  isEmpty (trim (userInput st)) = true -> handleSend st = (st, None).
Proof. intros H. unfold handleSend. rewrite H. reflexivity. Qed.

Lemma handleSend_startOver :
  toLowerCase (trim (userInput st)) = "start over" ->
  handleSend st = (startOver (echo (trim (userInput st)) st), None).
Proof.
  intros H. unfold handleSend.
  rewrite (command_not_empty _ "start over" H eq_refl), H.
  reflexivity.
Qed.

Hypothesis Hinput : isEmpty (trim (userInput st)) = false.
Hypothesis Hkeep : toLowerCase (trim (userInput st)) <> "start over".

Ltac enter :=
  unfold handleSend; rewrite Hinput;
  destruct (String.eqb_spec (toLowerCase (trim (userInput st))) "start over")
    as [?|_]; [contradiction|].

Lemma handleSend_BEAT :
  step st = STEPS !! "BEAT" ->
  handleSend st =
    (setUserInput ""
       (setStep (STEPS !! "BEAT_CONFIRM")
          (setCurrentPrompt "Do you want to add another beat? (yes/no)"
             (say "Beat added. Do you want to add another beat? (yes/no)"
                (setData_fn
                   (fun prev => withBeats prev (beats prev ++ [trim (userInput st)]))
                   (echo (trim (userInput st)) st))))), None).
Proof. intros Hs. enter. rewrite Hs. decide_steps. reflexivity. Qed.

Lemma handleSend_CHARACTER_DESCRIPTION :
  step st = STEPS !! "CHARACTER_DESCRIPTION" ->
  handleSend st =
    (setUserInput ""
       (setStep (STEPS !! "CHARACTERS")
          (setCurrentPrompt "Add another character? (yes/no)"
             (say "Character saved. Do you want to add another character? (yes/no)"
                (setData_fn (fun prev =>
                   withCharacters prev
                     (characters prev ++
                        [mkCharacter (currentCharName st) (trim (userInput st))
                           (colorAt (length (characters prev)))]))
                   (echo (trim (userInput st)) st))))), None).
Proof. intros Hs. enter. rewrite Hs. decide_steps. reflexivity. Qed.

Lemma handleSend_CONFIRM_yes :
  step st = STEPS !! "CONFIRM" ->
  toLowerCase (trim (userInput st)) = "yes" ->
  handleSend st =
    (setLoading true
       (setStep (STEPS !! "GENERATE")
          (setCurrentPrompt "Generating..."
             (say "Generating your story... Please wait."
                (echo (trim (userInput st)) st)))),
     Some (generateStory_begin st st).2).
Proof. intros Hs Hy. enter. rewrite Hs, Hy. decide_steps. reflexivity. Qed.

Lemma handleSend_CONFIRM_else :
  step st = STEPS !! "CONFIRM" ->
  toLowerCase (trim (userInput st)) <> "yes" ->
  handleSend st =
    (setUserInput ""
       (setCurrentPrompt ""
          (say "Story generation cancelled. To try again, type 'start over'."
             (echo (trim (userInput st)) st))), None).
Proof.
  intros Hs Hy. enter. rewrite Hs. decide_steps.
  destruct (String.eqb_spec (toLowerCase (trim (userInput st))) "yes") as [?|_];
    [contradiction | reflexivity].
Qed.

Lemma handleSend_no_branch :
  step st = STEPS !! "GENERATE" \/ step st = STEPS !! "EXTEND" ->
  handleSend st = (setUserInput "" (echo (trim (userInput st)) st), None).
Proof. intros [Hs | Hs]; enter; rewrite Hs; decide_steps; reflexivity. Qed.

End Branches.

(** ** The step leaves the table (C1) *)

(** C1.  The claim asks that the step is always one of the values of the
    enumeration and is the CHARACTERS member after a CHARACTER_DESCRIPTION
    transition.  The [STEPS] object has no CHARACTERS property, so
    [setStep(STEPS.CHARACTERS)] stores [undefined]: for every session at
    CHARACTER_DESCRIPTION and every accepted input, the step afterwards is
    that missing property and is none of the values of [STEPS]. *)
Theorem C1_character_description_sets_undefined (w : Session) (input : string) :
  step (ui w) = STEPS !! "CHARACTER_DESCRIPTION" ->
  isEmpty (trim input) = false ->
  ~ isStartOver input ->
  let w' := dispatch (Submit input) w in
  step (ui w') = STEPS !! "CHARACTERS"
  /\ step (ui w') = None
  /\ ~ enumerated (step (ui w')).
Proof.
  intros Hs He Hn. cbv zeta. unfold dispatch.
  rewrite handleSend_CHARACTER_DESCRIPTION by assumption.
  simpl. rewrite STEPS_CHARACTERS.
  split; [reflexivity | split; [reflexivity | apply undefined_not_enumerated]].
Qed.

Lemma C1_witness :
  (step (ui atDescription) = STEPS !! "CHARACTER_DESCRIPTION"
   /\ isEmpty (trim "A pilot") = false
   /\ ~ isStartOver "A pilot")
  /\ step (ui (dispatch (Submit "A pilot") atDescription)) = None.
Proof.
  assert (H1 : step (ui atDescription) = STEPS !! "CHARACTER_DESCRIPTION")
    by (vm_compute; reflexivity).
  assert (H2 : isEmpty (trim "A pilot") = false) by reflexivity.
  assert (H3 : ~ isStartOver "A pilot") by (vm_compute; discriminate).
  split; [auto |].
  exact (proj1 (proj2 (C1_character_description_sets_undefined
                         atDescription "A pilot" H1 H2 H3))).
Defined.

(** ** Reset (C2) *)

(** C2.  From any session whatever (any step, parameters, messages, result,
    pending calls), submitting "start over" leaves the step at BEAT, the
    parameters empty, the log with the welcome message alone and no result
    (the stored story is the empty string, which is how the component says
    that there is none), and sends nothing.  The command is recognised after
    trimming and in any letter case. *)
Theorem C2_start_over_resets (w : Session) (input : string) :
  isStartOver input ->
  let w' := dispatch (Submit input) w in
  step (ui w') = STEPS !! "BEAT"
  /\ storyOf w' = mkData [] [] "" "" ""
  /\ messages (ui w') = [mkMessage bot initialMessage]
  /\ generatedStory (ui w') = Value (JString "")
  /\ beforeGeneration (ui w') = true
  /\ requests w' = requests w.
Proof.
  intros H. cbv zeta. unfold dispatch.
  rewrite handleSend_startOver by exact H.
  repeat split; reflexivity.
Qed.

Lemma C2_witness :
  isStartOver "start over"
  /\ let w' := dispatch (Submit "start over") afterStory in
     step (ui w') = STEPS !! "BEAT"
     /\ storyOf w' = mkData [] [] "" "" ""
     /\ messages (ui w') = [mkMessage bot initialMessage]
     /\ generatedStory (ui w') = Value (JString "")
     /\ beforeGeneration (ui w') = true
     /\ requests w' = requests afterStory.
Proof.
  assert (H : isStartOver "start over") by reflexivity.
  split; [exact H | exact (C2_start_over_resets afterStory "start over" H)].
Defined.

(** ** Input once generation has started (C9) *)

(** C9, as amended.  At GENERATE or EXTEND a non-empty trimmed input that is
    not the reset command in any letter case only adds the user's message:
    step, parameters, stored story, prompt, controls and the network side
    are as before. *)
Theorem C9_input_after_generation_only_logged (w : Session) (input : string) :
  step (ui w) = STEPS !! "GENERATE" \/ step (ui w) = STEPS !! "EXTEND" ->
  isEmpty (trim input) = false ->
  ~ isStartOver input ->
  let w' := dispatch (Submit input) w in
  messages (ui w') = messages (ui w) ++ [mkMessage user (trim input)]
  /\ step (ui w') = step (ui w)
  /\ storyOf w' = storyOf w
  /\ generatedStory (ui w') = generatedStory (ui w)
  /\ currentPrompt (ui w') = currentPrompt (ui w)
  /\ temperature (ui w') = temperature (ui w)
  /\ desiredLength (ui w') = desiredLength (ui w)
  /\ requests w' = requests w
  /\ inFlight w' = inFlight w.
Proof.
  intros Hs He Hn. cbv zeta. unfold dispatch.
  rewrite handleSend_no_branch by assumption.
  repeat split; reflexivity.
Qed.

Lemma C9_witness :
  ((step (ui afterStory) = STEPS !! "GENERATE"
    \/ step (ui afterStory) = STEPS !! "EXTEND")
   /\ isEmpty (trim " and then? ") = false
   /\ ~ isStartOver " and then? ")
  /\ messages (ui (dispatch (Submit " and then? ") afterStory))
     = messages (ui afterStory) ++ [mkMessage user "and then?"].
Proof.
  assert (H1 : step (ui afterStory) = STEPS !! "GENERATE"
               \/ step (ui afterStory) = STEPS !! "EXTEND")
    by (right; vm_compute; reflexivity).
  assert (H2 : isEmpty (trim " and then? ") = false) by reflexivity.
  assert (H3 : ~ isStartOver " and then? ") by (vm_compute; discriminate).
  split; [auto |].
  exact (proj1 (C9_input_after_generation_only_logged
                  afterStory " and then? " H1 H2 H3)).
Defined.

(** The claim as written excludes the exact text only: in capitals the
    command still resets a session that waits at GENERATE. *)
Lemma C9_counterexample :
  let w' := dispatch (Submit "START OVER") afterFailure in
  step (ui afterFailure) = STEPS !! "GENERATE"
  /\ isEmpty (trim "START OVER") = false
  /\ trim "START OVER" <> "start over"
  /\ step (ui w') = STEPS !! "BEAT"
  /\ step (ui w') <> step (ui afterFailure)
  /\ storyOf w' <> storyOf afterFailure
  /\ messages (ui w') = [mkMessage bot initialMessage]
  /\ messages (ui w')
     <> messages (ui afterFailure) ++ [mkMessage user "START OVER"].
Proof.
  cbv zeta. repeat split; vm_compute; first [reflexivity | discriminate].
Qed.

(** ** The generation call (C4, C10) *)

Lemma generateStory_settle_caught (o : FetchOutcome) (s : State) :
  caught o ->
  generateStory_settle o s
  = setLoading false
      (setCurrentPrompt ""
         (say "Error generating story. Please try again or type 'start over'." s)).
Proof.
  destruct o as [| status [| result]]; simpl; intros H; try reflexivity.
  unfold generateStory_settle. rewrite H. reflexivity.
Qed.

Lemma generateStory_settle_stored (status : nat) (result : Json) (v : JsValue)
    (s : State) :
  prose_output result = Some v ->
  generateStory_settle (Responded status (Parsed result)) s
  = setLoading false
      (setLayoutMode both
         (setStep (STEPS !! "EXTEND")
            (setCurrentPrompt "Type your next input:"
               (say "Story generated. To view the full story, use the toggle button. Type 'start over' to reset."
                  (setGeneratedStory v s))))).
Proof. intros H. unfold generateStory_settle. rewrite H. reflexivity. Qed.

(** "yes" at CONFIRM sends the request; the session then waits for the call
    to settle. *)
Lemma yes_at_confirm (w : Session) :
  step (ui w) = STEPS !! "CONFIRM" ->
  dispatch (Submit "yes") w
  = mkSession
      (setLoading true
         (setStep (STEPS !! "GENERATE")
            (setCurrentPrompt "Generating..."
               (say "Generating your story... Please wait."
                  (echo "yes" (setUserInput "yes" (ui w)))))))
      (S (inFlight w))
      (requests w ++ [(generateStory_begin (ui w) (ui w)).2]).
Proof.
  intros Hs. unfold dispatch.
  rewrite handleSend_CONFIRM_yes by (reflexivity || discriminate || exact Hs).
  reflexivity.
Qed.

Lemma yes_then_settle (w : Session) (o : FetchOutcome) :
  step (ui w) = STEPS !! "CONFIRM" ->
  run [Submit "yes"; Settle o] w
  = mkSession
      (handleSend_resume o
         (setLoading true
            (setStep (STEPS !! "GENERATE")
               (setCurrentPrompt "Generating..."
                  (say "Generating your story... Please wait."
                     (echo "yes" (setUserInput "yes" (ui w))))))))
      (inFlight w)
      (requests w ++ [(generateStory_begin (ui w) (ui w)).2]).
Proof.
  intros Hs. rewrite !run_cons. rewrite (yes_at_confirm w Hs). reflexivity.
Qed.

(** What the claim describes does hold for the calls that reach the [catch]
    block: after "yes" at CONFIRM the error message is appended, loading is
    cleared, the step is GENERATE and the stored story is untouched. *)
Lemma caught_call_reports_error (w : Session) (o : FetchOutcome) :
  step (ui w) = STEPS !! "CONFIRM" ->
  caught o ->
  let w' := run [Submit "yes"; Settle o] w in
  last (messages (ui w'))
    = Some (mkMessage bot "Error generating story. Please try again or type 'start over'.")
  /\ loading (ui w') = false
  /\ step (ui w') = STEPS !! "GENERATE"
  /\ generatedStory (ui w') = generatedStory (ui w).
Proof.
  intros Hs Ho. cbv zeta. rewrite (yes_then_settle w o Hs).
  unfold handleSend_resume. cbn [ui].
  rewrite generateStory_settle_caught by exact Ho.
  simpl. rewrite last_snoc. repeat split; reflexivity.
Qed.

(** C4.  The claim asks that every failing call, a non-success status
    included, ends with an error message, the step at GENERATE and no result.
    [fetch] resolves whatever the status and the handler never looks at it:
    an answer of any status whose body is a JSON object without
    [prose_output] (the error body of the service) is handled as a story.
    The step becomes EXTEND, the stored story is [undefined], the message is
    the success message. *)
Theorem C4_error_answer_handled_as_story
    (w : Session) (status : nat) (detail : Json) :
  step (ui w) = STEPS !! "CONFIRM" ->
  let answer := Responded status (Parsed (JObject [("detail", detail)])) in
  let w' := run [Submit "yes"; Settle answer] w in
  ~ caught answer
  /\ step (ui w') = STEPS !! "EXTEND"
  /\ generatedStory (ui w') = Undefined
  /\ last (messages (ui w'))
     = Some (mkMessage bot "Story generated. To view the full story, use the toggle button. Type 'start over' to reset.")
  /\ loading (ui w') = false.
Proof.
  intros Hs. cbv zeta. split; [simpl; discriminate |].
  rewrite (yes_then_settle w _ Hs).
  unfold handleSend_resume. cbn [ui].
  rewrite generateStory_settle_stored with (v := Undefined) by reflexivity.
  simpl. rewrite last_snoc. repeat split; reflexivity.
Qed.

Lemma C4_witness :
  step (ui atConfirm) = STEPS !! "CONFIRM"
  /\ let answer :=
       Responded 422 (Parsed (JObject [("detail", JString "Unprocessable Entity")])) in
     let w' := run [Submit "yes"; Settle answer] atConfirm in
     step (ui w') = STEPS !! "EXTEND" /\ generatedStory (ui w') = Undefined.
Proof.
  assert (H : step (ui atConfirm) = STEPS !! "CONFIRM")
    by (vm_compute; reflexivity).
  split; [exact H |].
  pose proof (C4_error_answer_handled_as_story atConfirm 422
                (JString "Unprocessable Entity") H) as K.
  cbv zeta in *. split; [exact (proj1 (proj2 K)) | exact (proj1 (proj2 (proj2 K)))].
Defined.

(** C10.  A result exists, for the presentation, when the stored string is
    not empty.  When the call answers with an empty [prose_output] the step
    becomes EXTEND and yet the view stays the one from before generation: the
    right panel shows the parameters and the toggle goes from "both" to
    "chatOnly" and back, never to "storyOnly". *)
Theorem C10_empty_prose_keeps_parameters_view
    (w : Session) (status : nat) (result : Json) :
  step (ui w) = STEPS !! "CONFIRM" ->
  prose_output result = Some (Value (JString "")) ->
  let w' := run [Submit "yes"; Settle (Responded status (Parsed result))] w in
  step (ui w') = STEPS !! "EXTEND"
  /\ generatedStory (ui w') = Value (JString "")
  /\ beforeGeneration (ui w') = true
  /\ rightPanel (ui w') = Some GenerationParameters
  /\ layoutMode (ui w') = both
  /\ layoutMode (ui (dispatch CycleLayout w')) = chatOnly
  /\ layoutMode (ui (run [CycleLayout; CycleLayout] w')) = both.
Proof.
  intros Hs Hp. cbv zeta.
  rewrite (yes_then_settle w _ Hs).
  unfold handleSend_resume. cbn [ui].
  rewrite generateStory_settle_stored with (v := Value (JString "")) by exact Hp.
  repeat split; reflexivity.
Qed.

Lemma C10_witness :
  (step (ui atConfirm) = STEPS !! "CONFIRM"
   /\ prose_output (JObject [("prose_output", JString "")])
      = Some (Value (JString "")))
  /\ let w' := run [Submit "yes";
                    Settle (Responded 200
                              (Parsed (JObject [("prose_output", JString "")])))]
                 atConfirm in
     step (ui w') = STEPS !! "EXTEND"
     /\ rightPanel (ui w') = Some GenerationParameters
     /\ layoutMode (ui (dispatch CycleLayout w')) = chatOnly.
Proof.
  assert (H1 : step (ui atConfirm) = STEPS !! "CONFIRM")
    by (vm_compute; reflexivity).
  assert (H2 : prose_output (JObject [("prose_output", JString "")])
               = Some (Value (JString ""))) by reflexivity.
  split; [auto |].
  pose proof (C10_empty_prose_keeps_parameters_view atConfirm 200 _ H1 H2) as K.
  cbv zeta in *.
  destruct K as (K1 & _ & _ & K4 & _ & K6 & _). auto.
Defined.

(** ** Declining at CONFIRM (C5) *)

(** One input at CONFIRM that is neither "yes" nor the reset command, empty
    or not, leaves the session at CONFIRM with its parameters, its stored
    story and the list of sent requests untouched. *)
Lemma declined_at_confirm (w : Session) (input : string) :
  step (ui w) = STEPS !! "CONFIRM" ->
  ~ isYes input ->
  ~ isStartOver input ->
  let w' := dispatch (Submit input) w in
  step (ui w') = STEPS !! "CONFIRM"
  /\ storyOf w' = storyOf w
  /\ generatedStory (ui w') = generatedStory (ui w)
  /\ requests w' = requests w
  /\ inFlight w' = inFlight w.
Proof.
  intros Hs Hy Hn. cbv zeta. unfold dispatch.
  destruct (isEmpty (trim input)) eqn:He.
  - rewrite handleSend_ignored by exact He. simpl. auto.
  - rewrite handleSend_CONFIRM_else by assumption. simpl. auto.
Qed.

(** C5.  The claim asks that declining at CONFIRM ends the conversation:
    after the cancellation message nothing but a reset leads on, and no later
    input can send a generation request.  The branch appends the message,
    whose own text sends the user to 'start over' to try again, and clears
    the prompt, but it stores no step: the session stays at CONFIRM.  So for
    every session at CONFIRM and every declining input, a "yes" typed next is
    taken by the CONFIRM branch and sends the request with the parameters as
    they are, and the step becomes GENERATE. *)
Theorem C5_yes_after_cancellation_generates (w : Session) (input : string) :
  step (ui w) = STEPS !! "CONFIRM" ->
  isEmpty (trim input) = false ->
  ~ isYes input ->
  ~ isStartOver input ->
  let w1 := dispatch (Submit input) w in
  let w2 := dispatch (Submit "yes") w1 in
  messages (ui w1)
    = messages (ui w)
        ++ [ mkMessage user (trim input);
             mkMessage bot "Story generation cancelled. To try again, type 'start over'." ]
  /\ step (ui w1) = STEPS !! "CONFIRM"
  /\ requests w1 = requests w
  /\ step (ui w2) = STEPS !! "GENERATE"
  /\ loading (ui w2) = true
  /\ requests w2
     = requests w
         ++ [ mkPayload (beats (storyOf w)) (characters (storyOf w))
                (setting (storyOf w)) (genre (storyOf w)) (style (storyOf w))
                (temperature (ui w)) (desiredLength (ui w)) ].
Proof.
  intros Hs He Hy Hn. cbv zeta.
  destruct (declined_at_confirm w input Hs Hy Hn) as (H1 & _ & _ & H4 & _).
  cbv zeta in H1, H4.
  rewrite (yes_at_confirm _ H1).
  split; [| split; [exact H1 | split; [exact H4 |]]].
  - unfold dispatch. rewrite handleSend_CONFIRM_else by assumption.
    simpl. rewrite <- app_assoc. reflexivity.
  - cbn [ui requests]. rewrite H4.
    split; [reflexivity |]. split; [reflexivity |].
    f_equal. f_equal.
    unfold dispatch. rewrite handleSend_CONFIRM_else by assumption.
    reflexivity.
Qed.

Lemma C5_witness :
  (step (ui atConfirm) = STEPS !! "CONFIRM"
   /\ isEmpty (trim "no") = false
   /\ ~ isYes "no"
   /\ ~ isStartOver "no")
  /\ let w1 := dispatch (Submit "no") atConfirm in
     let w2 := dispatch (Submit "yes") w1 in
     step (ui w1) = STEPS !! "CONFIRM"
     /\ step (ui w2) = STEPS !! "GENERATE"
     /\ requests w2
        = [ mkPayload ["The ship leaves"] [mkCharacter "Ana" "A pilot" "#f44336"]
              "A ship" "Sci-Fi" "Tense" (7 # 10)%Q 1000%Z ].
Proof.
  assert (H1 : step (ui atConfirm) = STEPS !! "CONFIRM")
    by (vm_compute; reflexivity).
  assert (H2 : isEmpty (trim "no") = false) by reflexivity.
  assert (H3 : ~ isYes "no") by (vm_compute; discriminate).
  assert (H4 : ~ isStartOver "no") by (vm_compute; discriminate).
  split; [auto |].
  pose proof (C5_yes_after_cancellation_generates atConfirm "no" H1 H2 H3 H4) as K.
  cbv zeta in *. destruct K as (_ & K2 & _ & K4 & _ & K6).
  split; [exact K2 |]. split; [exact K4 |].
  rewrite K6. vm_compute. reflexivity.
Defined.

(** ** The linear path (C6) *)

Lemma first_beat_accepted (firstBeat : string) :
  isEmpty (trim firstBeat) = false ->
  ~ isStartOver firstBeat ->
  dispatch (Submit firstBeat) initialSession
  = mkSession
      (mkState (STEPS !! "BEAT_CONFIRM")
         (mkData [trim firstBeat] [] "" "" "") ""
         false false false "" "" ""
         "" false "" "" false
         [ mkMessage bot initialMessage; mkMessage user (trim firstBeat);
           mkMessage bot "Beat added. Do you want to add another beat? (yes/no)" ]
         "Do you want to add another beat? (yes/no)" ""
         (Value (JString "")) (7 # 10)%Q 1000%Z both false)
      0 [].
Proof.
  intros He Hn. unfold dispatch.
  rewrite handleSend_BEAT by (assumption || reflexivity).
  reflexivity.
Qed.

(** The first input is taken as a beat, that is the conversation is at
    BEAT_CONFIRM after it, exactly when it is not empty after trimming and is
    not the reset command. *)
Lemma first_beat_taken_iff (firstBeat : string) :
  step (ui (dispatch (Submit firstBeat) initialSession)) = STEPS !! "BEAT_CONFIRM"
  <-> isEmpty (trim firstBeat) = false /\ ~ isStartOver firstBeat.
Proof.
  split.
  - intros H. destruct (isEmpty (trim firstBeat)) eqn:He.
    + unfold dispatch in H. rewrite handleSend_ignored in H by exact He.
      discriminate H.
    + split; [reflexivity |]. intros Hr.
      unfold dispatch in H. rewrite handleSend_startOver in H by exact Hr.
      discriminate H.
  - intros [He Hn]. rewrite (first_beat_accepted firstBeat He Hn). reflexivity.
Qed.

(** C6.  From the initial session, a first beat, then "no", "Ana",
    "A pilot", "no", "A ship", "Sci-Fi", "Tense": the step is CONFIRM and the
    parameters are the one beat, the one character Ana with the first palette
    colour, and the three texts.  A first beat is an input that the BEAT
    branch takes, so that "no" is indeed submitted at BEAT_CONFIRM: by
    [first_beat_taken_iff] these are the inputs that are not empty after
    trimming and are not the reset command.  The beat stored is the trimmed
    input. *)
Theorem C6_linear_path_ends_at_confirm (firstBeat : string) :
  isEmpty (trim firstBeat) = false ->
  ~ isStartOver firstBeat ->
  let w := run (linearPath firstBeat) initialSession in
  step (ui w) = STEPS !! "CONFIRM"
  /\ storyOf w
     = mkData [trim firstBeat]
         [mkCharacter "Ana" "A pilot" (nth 0 characterColors "")]
         "A ship" "Sci-Fi" "Tense".
Proof.
  intros He Hn. cbv zeta. unfold linearPath.
  rewrite run_cons, (first_beat_accepted firstBeat He Hn).
  generalize (trim firstBeat). intros beat.
  split; vm_compute; reflexivity.
Qed.

Lemma C6_witness :
  (isEmpty (trim " The ship leaves ") = false
   /\ ~ isStartOver " The ship leaves ")
  /\ let w := run (linearPath " The ship leaves ") initialSession in
     step (ui w) = STEPS !! "CONFIRM"
     /\ storyOf w
        = mkData ["The ship leaves"] [mkCharacter "Ana" "A pilot" "#f44336"]
            "A ship" "Sci-Fi" "Tense".
Proof.
  assert (H1 : isEmpty (trim " The ship leaves ") = false) by reflexivity.
  assert (H2 : ~ isStartOver " The ship leaves ") by (vm_compute; discriminate).
  split; [auto |].
  exact (C6_linear_path_ends_at_confirm " The ship leaves " H1 H2).
Defined.

(** ** The editor leaves the conversation alone (C8) *)

(** C8.  Adding or removing a beat, adding or removing a character and
    committing an edit of setting, genre or style change neither the step nor
    the message log, on any session; the prompt, the stored story and the
    network side are untouched as well. *)
Theorem C8_editor_keeps_step_and_messages (e : Event) (w : Session) :
  editorOperation e = true ->
  let w' := dispatch e w in
  step (ui w') = step (ui w)
  /\ messages (ui w') = messages (ui w)
  /\ currentPrompt (ui w') = currentPrompt (ui w)
  /\ generatedStory (ui w') = generatedStory (ui w)
  /\ inFlight w' = inFlight w
  /\ requests w' = requests w.
Proof.
  intros He. cbv zeta.
  destruct e as [ | | input | index | n d | index | | | param | | | | | ];
    try discriminate He; unfold dispatch, onUi; cbn [ui inFlight requests].
  - unfold handleAddBeat.
    destruct (negb (isEmpty (trim (newBeat (setNewBeat input (ui w))))));
      repeat split; reflexivity.
  - repeat split; reflexivity.
  - unfold handleAddCharacter.
    destruct (negb (isEmpty (trim (newCharacterName
                (setNewCharacterDesc d (setNewCharacterName n (ui w))))))
              && negb (isEmpty (trim (newCharacterDesc
                (setNewCharacterDesc d (setNewCharacterName n (ui w)))))));
      repeat split; reflexivity.
  - repeat split; reflexivity.
  - unfold saveEdit.
    destruct (String.eqb param "setting"); [repeat split; reflexivity |].
    destruct (String.eqb param "genre"); [repeat split; reflexivity |].
    destruct (String.eqb param "style"); repeat split; reflexivity.
Qed.

Lemma C8_witness :
  editorOperation (RemoveBeat 0) = true
  /\ step (ui (dispatch (RemoveBeat 0) atConfirm)) = step (ui atConfirm)
  /\ messages (ui (dispatch (RemoveBeat 0) atConfirm)) = messages (ui atConfirm).
Proof.
  assert (H : editorOperation (RemoveBeat 0) = true) by reflexivity.
  pose proof (C8_editor_keeps_step_and_messages (RemoveBeat 0) atConfirm H) as K.
  cbv zeta in K. destruct K as (K1 & K2 & _). auto.
Defined.

(** ** Beats keep their insertion order (C7) *)

Section IndexedFilter.
Context {A : Type}.

(** [filter((_, i) => i !== index)] deletes position [index] and changes
    nothing when no position has that number. *)
Lemma filterFrom_delete (index : Z) (l : list A) (k : Z) :
  filterFrom (fun _ i => negb (i =? index)%Z) k l
  = if (k <=? index)%Z then delete (Z.to_nat (index - k)) l else l.
Proof.
  revert k. induction l as [| x rest IH]; intros k; simpl.
  - destruct (k <=? index)%Z; reflexivity.
  - rewrite IH.
    destruct (Z.eqb_spec k index) as [-> | Hne]; simpl.
    + rewrite Z.leb_refl, Z.sub_diag.
      destruct (Z.leb_spec (index + 1) index); [lia | reflexivity].
    + destruct (Z.leb_spec k index) as [Hle | Hgt].
      * destruct (Z.leb_spec (k + 1) index); [| lia].
        replace (Z.to_nat (index - k)) with (S (Z.to_nat (index - (k + 1))))
          by lia.
        reflexivity.
      * destruct (Z.leb_spec (k + 1) index); [lia | reflexivity].
Qed.

Lemma filterIndexed_delete (index : Z) (l : list A) :
  filterIndexed (fun _ i => negb (i =? index)%Z) l
  = if (0 <=? index)%Z then delete (Z.to_nat index) l else l.
Proof.
  unfold filterIndexed. rewrite filterFrom_delete, Z.sub_0_r. reflexivity.
Qed.

Lemma delete_beyond (i : nat) (l : list A) : length l <= i -> delete i l = l.
Proof.
  revert i. induction l as [| x rest IH]; intros [| i] H; simpl in *;
    try reflexivity; [lia |].
  f_equal. apply IH. lia.
Qed.

Lemma filterIndexed_out_of_range (index : Z) (l : list A) :
  (index < 0 \/ Z.of_nat (length l) <= index)%Z ->
  filterIndexed (fun _ i => negb (i =? index)%Z) l = l.
Proof.
  intros H. rewrite filterIndexed_delete.
  destruct (Z.leb_spec 0 index); [| reflexivity].
  apply delete_beyond. lia.
Qed.

Lemma filterIndexed_sublist (index : Z) (l : list A) :
  filterIndexed (fun _ i => negb (i =? index)%Z) l `sublist_of` l.
Proof.
  rewrite filterIndexed_delete.
  destruct (0 <=? index)%Z; [apply sublist_delete | reflexivity].
Qed.

End IndexedFilter.

Module BeatSpecFacts.
Import BeatSpec.

Lemma remaining_cons_live b rest : remaining ((b, true) :: rest) = b :: remaining rest.
Proof. reflexivity. Qed.

Lemma remaining_cons_struck b rest : remaining ((b, false) :: rest) = remaining rest.
Proof. reflexivity. Qed.

Lemma remaining_record input l :
  remaining (record input l)
  = if isEmpty (trim input) then remaining l else remaining l ++ [trim input].
Proof.
  unfold record. destruct (isEmpty (trim input)); [reflexivity |].
  unfold remaining. rewrite filter_app, map_app. reflexivity.
Qed.

(** Striking position [index] of the ledger is deleting position [index]
    of what remains. *)
Lemma remaining_strike index l :
  remaining (strike index l)
  = if (0 <=? index)%Z then delete (Z.to_nat index) (remaining l) else remaining l.
Proof.
  revert index. induction l as [| [b [|]] rest IH]; intros index.
  - simpl. destruct (0 <=? index)%Z; reflexivity.
  - simpl strike. destruct (Z.eqb_spec index 0) as [-> | Hne].
    + rewrite remaining_cons_struck, remaining_cons_live. reflexivity.
    + rewrite !remaining_cons_live, IH.
      destruct (Z.leb_spec 0 index).
      * destruct (Z.leb_spec 0 (index - 1)); [| lia].
        replace (Z.to_nat index) with (S (Z.to_nat (index - 1))) by lia.
        reflexivity.
      * destruct (Z.leb_spec 0 (index - 1)); [lia | reflexivity].
  - simpl strike. rewrite !remaining_cons_struck. apply IH.
Qed.

Lemma texts_strike index l : map fst (strike index l) = map fst l.
Proof.
  revert index. induction l as [| [b [|]] rest IH]; intros index; simpl.
  - reflexivity.
  - destruct (index =? 0)%Z; simpl; [reflexivity | f_equal; apply IH].
  - f_equal. apply IH.
Qed.

Lemma texts_foldl ops l :
  map fst (foldl apply l ops) = map fst l ++ inserted ops.
Proof.
  revert l. induction ops as [| [input | index] ops IH]; intros l.
  - simpl. rewrite app_nil_r. reflexivity.
  - simpl foldl. rewrite IH. unfold inserted at 1. simpl. unfold record.
    destruct (isEmpty (trim input)).
    + reflexivity.
    + rewrite map_app. simpl. rewrite <- app_assoc. reflexivity.
  - simpl foldl. rewrite IH, texts_strike. reflexivity.
Qed.

Lemma texts_ledger ops : map fst (ledger ops) = inserted ops.
Proof. apply (texts_foldl ops []). Qed.

Lemma remaining_sublist l : remaining l `sublist_of` map fst l.
Proof.
  induction l as [| [b [|]] rest IH].
  - constructor.
  - rewrite remaining_cons_live. simpl. apply sublist_skip, IH.
  - rewrite remaining_cons_struck. simpl. apply sublist_cons, IH.
Qed.

End BeatSpecFacts.

Lemma beats_after_add (input : string) (w : Session) :
  beats (storyOf (dispatch (AddBeat input) w))
  = if isEmpty (trim input) then beats (storyOf w)
    else beats (storyOf w) ++ [trim input].
Proof.
  unfold dispatch, onUi, storyOf, handleAddBeat. cbn [ui newBeat setNewBeat].
  destruct (isEmpty (trim input)); reflexivity.
Qed.

Lemma beats_after_remove (index : Z) (w : Session) :
  beats (storyOf (dispatch (RemoveBeat index) w))
  = filterIndexed (fun _ i => negb (i =? index)%Z) (beats (storyOf w)).
Proof. reflexivity. Qed.

Lemma removeBeat_out_of_range (index : Z) (st : State) :
  (index < 0 \/ Z.of_nat (length (beats (data st))) <= index)%Z ->
  removeBeat index st = st.
Proof.
  intros H. unfold removeBeat, setData_fn, setData, withBeats.
  rewrite filterIndexed_out_of_range by exact H.
  destruct st as [? [? ? ? ? ?] ? ? ? ? ? ? ? ? ? ? ? ? ? ? ? ? ? ? ? ?].
  reflexivity.
Qed.

Lemma runBeatOps_cons (v : StepValue) (op : BeatOp)
    (ops : list (StepValue * BeatOp)) (w : Session) :
  runBeatOps ((v, op) :: ops) w
  = runBeatOps ops (dispatch (beatEvent op) (onUi (setStep v) w)).
Proof. reflexivity. Qed.

(** The code and the ledger stay in step, whatever the step of each
    operation. *)
Lemma runBeatOps_refines (ops : list (StepValue * BeatOp)) (w : Session)
    (l : BeatSpec.Ledger) :
  beats (storyOf w) = BeatSpec.remaining l ->
  beats (storyOf (runBeatOps ops w))
  = BeatSpec.remaining (foldl BeatSpec.apply l (map snd ops)).
Proof.
  revert w l. induction ops as [| [v [input | index]] ops IH]; intros w l Hw.
  - exact Hw.
  - rewrite runBeatOps_cons. simpl map. simpl foldl. apply IH.
    simpl beatEvent. rewrite beats_after_add, BeatSpecFacts.remaining_record.
    change (beats (storyOf (onUi (setStep v) w))) with (beats (storyOf w)).
    rewrite Hw. reflexivity.
  - rewrite runBeatOps_cons. simpl map. simpl foldl. apply IH.
    simpl beatEvent. rewrite beats_after_remove, BeatSpecFacts.remaining_strike.
    change (beats (storyOf (onUi (setStep v) w))) with (beats (storyOf w)).
    rewrite Hw. apply filterIndexed_delete.
Qed.

(** C7.  Run any sequence of add-beat and remove-beat operations, each at a
    step chosen freely.  The beats at the end are the added beats (trimmed
    inputs that were not empty) in insertion order without those that a
    removal struck, where a removal strikes the beat at its position among
    the beats present and nothing when there is no such position.  The steps
    do not occur on the specification side: the result does not depend on
    them.  A removal out of range leaves the whole component as it was. *)
Theorem C7_beats_are_insertions_minus_removals :
  (forall ops : list (StepValue * BeatOp),
     let spec := BeatSpec.ledger (map snd ops) in
     beats (storyOf (runBeatOps ops initialSession)) = BeatSpec.remaining spec
     /\ map fst spec = BeatSpec.inserted (map snd ops)
     /\ BeatSpec.remaining spec `sublist_of` BeatSpec.inserted (map snd ops))
  /\ (forall (index : Z) (l : BeatSpec.Ledger),
        BeatSpec.remaining (BeatSpec.strike index l)
        = if (0 <=? index)%Z
          then delete (Z.to_nat index) (BeatSpec.remaining l)
          else BeatSpec.remaining l)
  /\ (forall (index : Z) (w : Session),
        (index < 0 \/ Z.of_nat (length (beats (storyOf w))) <= index)%Z ->
        dispatch (RemoveBeat index) w = w).
Proof.
  split; [| split].
  - intros ops spec. subst spec.
    split; [| split].
    + apply runBeatOps_refines. reflexivity.
    + apply BeatSpecFacts.texts_ledger.
    + rewrite <- BeatSpecFacts.texts_ledger.
      apply BeatSpecFacts.remaining_sublist.
  - apply BeatSpecFacts.remaining_strike.
  - intros index [st n r] H. unfold dispatch, onUi. cbn [ui inFlight requests].
    rewrite removeBeat_out_of_range by exact H. reflexivity.
Qed.

Lemma C7_witness :
  let ops :=
    [ (STEPS !! "BEAT", OpAddBeat " dawn ");
      (STEPS !! "GENRE", OpAddBeat "storm");
      (STEPS !! "EXTEND", OpRemoveBeat 0);
      (STEPS !! "CHARACTERS", OpAddBeat "   ");
      (STEPS !! "CONFIRM", OpRemoveBeat 7);
      (STEPS !! "GENERATE", OpAddBeat "landfall") ] in
  beats (storyOf (runBeatOps ops initialSession)) = ["storm"; "landfall"]
  /\ BeatSpec.inserted (map snd ops) = ["dawn"; "storm"; "landfall"]
  /\ ((7 < 0 \/ Z.of_nat (length (beats (storyOf atConfirm))) <= 7)%Z
      /\ dispatch (RemoveBeat 7) atConfirm = atConfirm).
Proof.
  cbv zeta.
  assert (H : (7 < 0 \/ Z.of_nat (length (beats (storyOf atConfirm))) <= 7)%Z)
    by (right; vm_compute; discriminate).
  split; [| split; [reflexivity | split; [exact H |]]].
  - rewrite (proj1 (proj1 C7_beats_are_insertions_minus_removals _)).
    reflexivity.
  - exact (proj2 (proj2 C7_beats_are_insertions_minus_removals) 7%Z atConfirm H).
Defined.

(** ** Character colours (C3) *)

(** What one event can do to the list of characters: nothing, append one
    character coloured by the length of the list, filter one position out, or
    empty the list on a reset. *)
Lemma characters_after (e : Event) (w : Session) :
  let before := characters (storyOf w) in
  let after := characters (storyOf (dispatch e w)) in
  after = before
  \/ (exists c, after = before ++ [c] /\ color c = colorAt (length before))
  \/ (exists index,
        e = RemoveCharacter index
        /\ after = filterIndexed (fun _ i => negb (i =? index)%Z) before)
  \/ (exists input, e = Submit input /\ isStartOver input /\ after = []).
Proof.
  cbv zeta. unfold storyOf.
  destruct e as [ input | o | input | index | n d | index | param | param value
                | param | | | | q | n ];
    unfold dispatch, onUi; cbn [ui].
  - unfold handleSend. cbn [userInput setUserInput].
    destruct (isEmpty (trim input)); [left; reflexivity |].
    destruct (String.eqb_spec (toLowerCase (trim input)) "start over") as [Hr |_].
    { right; right; right. exists input. auto. }
    repeat case_decide;
      try destruct (String.eqb (toLowerCase (trim input)) "yes");
      first [ left; reflexivity | right; left; eexists; split; reflexivity ].
  - destruct (inFlight w); [left; reflexivity |].
    left. unfold handleSend_resume, generateStory_settle.
    destruct o as [| status [| result]]; try reflexivity.
    destruct (prose_output result); reflexivity.
  - left. unfold handleAddBeat.
    destruct (negb (isEmpty (trim (newBeat (setNewBeat input (ui w))))));
      reflexivity.
  - left. reflexivity.
  - unfold handleAddCharacter.
    destruct (negb (isEmpty (trim (newCharacterName
                (setNewCharacterDesc d (setNewCharacterName n (ui w))))))
              && negb (isEmpty (trim (newCharacterDesc
                (setNewCharacterDesc d (setNewCharacterName n (ui w)))))));
      [| left; reflexivity].
    right; left. eexists. split; reflexivity.
  - right; right; left. exists index. split; reflexivity.
  - left. unfold toggleEdit.
    destruct (String.eqb param "setting"); [reflexivity |].
    destruct (String.eqb param "genre"); [reflexivity |].
    destruct (String.eqb param "style"); reflexivity.
  - left. unfold typeEdit.
    destruct (String.eqb param "setting"); [reflexivity |].
    destruct (String.eqb param "genre"); [reflexivity |].
    destruct (String.eqb param "style"); reflexivity.
  - left. unfold saveEdit.
    destruct (String.eqb param "setting"); [reflexivity |].
    destruct (String.eqb param "genre"); [reflexivity |].
    destruct (String.eqb param "style"); reflexivity.
  - left. reflexivity.
  - left. reflexivity.
  - left. unfold cycleLayoutMode. destruct (beforeGeneration (ui w)); reflexivity.
  - left. reflexivity.
  - left. reflexivity.
Qed.

Lemma addedBy_appends (e : Event) (w : Session) (c : Character) :
  addedBy e w = Some c ->
  characters (storyOf (dispatch e w)) = characters (storyOf w) ++ [c]
  /\ color c = colorAt (length (characters (storyOf w))).
Proof.
  unfold addedBy. case_decide as Hlen; [| discriminate].
  intros Hlast.
  destruct (characters_after e w)
    as [Heq | [(c' & Heq & Hc) | [(index & _ & Heq) | (input & _ & _ & Heq)]]];
    rewrite Heq in Hlen, Hlast.
  - lia.
  - rewrite last_snoc in Hlast. injection Hlast as <-. rewrite Heq. auto.
  - pose proof (sublist_length _ _
                  (filterIndexed_sublist index (characters (storyOf w)))).
    lia.
  - discriminate Hlen.
Qed.

Lemma kept_characters (e : Event) (w : Session) :
  keepsCharacters e ->
  addedBy e w = None
  /\ characters (storyOf (dispatch e w)) = characters (storyOf w)
  \/ exists c, addedBy e w = Some c.
Proof.
  intros Hk.
  destruct (characters_after e w)
    as [Heq | [(c' & Heq & Hc) | [(index & -> & _) | (input & -> & Hr & _)]]].
  - left. split; [| exact Heq]. unfold addedBy. rewrite Heq.
    case_decide; [lia | reflexivity].
  - right. exists c'. unfold addedBy. rewrite Heq, length_app, last_snoc.
    simpl. case_decide; [reflexivity | lia].
  - destruct Hk.
  - destruct (Hk Hr).
Qed.

Lemma addedLog_colors (es : list Event) (w : Session) (k : nat) (c : Character) :
  Forall keepsCharacters es ->
  addedLog es w !! k = Some c ->
  color c = colorAt (length (characters (storyOf w)) + k).
Proof.
  intros Hall. revert w k.
  induction Hall as [| e es Hk _ IH]; intros w k; simpl.
  - discriminate.
  - destruct (kept_characters e w Hk) as [[Hnone Hsame] | [c' Hsome]].
    + rewrite Hnone. simpl. intros H. rewrite <- Hsame. apply IH, H.
    + rewrite Hsome. simpl.
      destruct (addedBy_appends e w c' Hsome) as [Happ Hcol].
      destruct k as [| k]; simpl.
      * intros [= <-]. rewrite Nat.add_0_r. exact Hcol.
      * intros H. apply IH in H. rewrite Happ, length_app in H. simpl in H.
        replace (length (characters (storyOf w)) + S k)
          with (length (characters (storyOf w)) + 1 + k) by lia.
        exact H.
Qed.

(** C3, as amended.  A character that an event adds, in the conversation or
    in the editor, goes to the end of the list and takes the palette colour
    at the number of characters then in the list, modulo the palette size.
    In a session without removal and without reset that number is the count
    of earlier adds, so the k-th added character has colour number
    [k mod 5].  No event changes a character already in the list: the list
    afterwards is a sublist of the one before, or the one before with one
    character appended. *)
Theorem C3_color_is_palette_at_current_count :
  (forall (e : Event) (w : Session) (c : Character),
      addedBy e w = Some c ->
      characters (storyOf (dispatch e w)) = characters (storyOf w) ++ [c]
      /\ color c
         = nth (length (characters (storyOf w)) mod length characterColors)
             characterColors "")
  /\ (forall (es : list Event) (k : nat) (c : Character),
        Forall keepsCharacters es ->
        addedLog es initialSession !! k = Some c ->
        color c = nth (k mod length characterColors) characterColors "")
  /\ (forall (e : Event) (w : Session),
        characters (storyOf (dispatch e w)) `sublist_of` characters (storyOf w)
        \/ exists c,
             characters (storyOf (dispatch e w)) = characters (storyOf w) ++ [c]).
Proof.
  split; [| split].
  - exact addedBy_appends.
  - intros es k c Hall H.
    exact (addedLog_colors es initialSession k c Hall H).
  - intros e w.
    destruct (characters_after e w)
      as [Heq | [(c' & Heq & _) | [(index & _ & Heq) | (input & _ & _ & Heq)]]];
      rewrite Heq.
    + left. reflexivity.
    + right. exists c'. reflexivity.
    + left. apply filterIndexed_sublist.
    + left. apply sublist_nil_l.
Qed.

Lemma C3_witness :
  let es := [ Submit "dawn"; Submit "no"; Submit "Ana"; Submit "A pilot";
              AddCharacter "Bo" "A cook"; AddBeat "storm";
              AddCharacter " " "nobody"; AddCharacter "Cy" "A spy" ] in
  (Forall keepsCharacters es
   /\ addedLog es initialSession !! 2%nat
      = Some (mkCharacter "Cy" "A spy" "#2196f3"))
  /\ color (mkCharacter "Cy" "A spy" "#2196f3")
     = nth (2 mod length characterColors) characterColors "".
Proof.
  cbv zeta.
  match goal with |- (?A /\ ?B) /\ _ =>
    assert (H1 : A) by (repeat constructor; vm_compute; discriminate);
    assert (H2 : B) by (vm_compute; reflexivity)
  end.
  split; [auto |].
  exact (proj1 (proj2 C3_color_is_palette_at_current_count) _ 2%nat _ H1 H2).
Defined.

(** The claim counts adds.  After a removal the list is shorter than the
    number of adds so far, and the third character added takes the second
    palette colour, which the second character added still wears. *)
Lemma C3_counterexample :
  let es := [ AddCharacter "Ana" "A pilot"; AddCharacter "Bo" "A cook";
              RemoveCharacter 0; AddCharacter "Cy" "A spy" ] in
  addedLog es initialSession
  = [ mkCharacter "Ana" "A pilot" "#f44336"; mkCharacter "Bo" "A cook" "#4caf50";
      mkCharacter "Cy" "A spy" "#4caf50" ]
  /\ nth (2 mod length characterColors) characterColors "" = "#2196f3"
  /\ (exists c, addedLog es initialSession !! 2%nat = Some c
                /\ color c <> nth (2 mod length characterColors) characterColors "")
  /\ characters (storyOf (run es initialSession))
     = [ mkCharacter "Bo" "A cook" "#4caf50"; mkCharacter "Cy" "A spy" "#4caf50" ].
Proof.
  cbv zeta. split; [vm_compute; reflexivity |].
  split; [reflexivity |].
  split; [| vm_compute; reflexivity].
  exists (mkCharacter "Cy" "A spy" "#4caf50").
  split; [vm_compute; reflexivity | vm_compute; discriminate].
Qed.


(** * Further properties of the component *)

(** ** White space and [trim] *)

Lemma append_associative (a b c : string) :
  (a +:+ b) +:+ c = a +:+ (b +:+ c).
Proof.
  induction a as [| x a IH]; [reflexivity |].
  change (String x ((a +:+ b) +:+ c) = String x (a +:+ (b +:+ c))).
  rewrite IH. reflexivity.
Qed.

Lemma length_append (a b : string) :
  String.length (a +:+ b) = String.length a + String.length b.
Proof.
  induction a as [| x a IH]; [reflexivity |].
  change (S (String.length (a +:+ b)) = S (String.length a + String.length b)).
  rewrite IH. reflexivity.
Qed.

Lemma trimStart_cases (s : string) :
  trimStart s = s
  \/ exists p s', s = p +:+ s' /\ 0 < String.length p
                  /\ forall y, trimStart (p +:+ y) = trimStart y.
Proof.
  destruct s as [| c1 s1]; [left; reflexivity |].
  destruct (isWhiteSpace1 c1) eqn:H1.
  { right. exists (String c1 ""), s1. split; [reflexivity |].
    split; [simpl; lia |]. intros y.
    change (String c1 "" +:+ y) with (String c1 y).
    cbn [trimStart]. rewrite H1. reflexivity. }
  destruct s1 as [| c2 s2].
  { left. cbn [trimStart]. rewrite H1. reflexivity. }
  destruct (isWhiteSpace2 c1 c2) eqn:H2.
  { right. exists (String c1 (String c2 "")), s2. split; [reflexivity |].
    split; [simpl; lia |]. intros y.
    change (String c1 (String c2 "") +:+ y) with (String c1 (String c2 y)).
    cbn [trimStart]. rewrite H1, H2. reflexivity. }
  destruct s2 as [| c3 s3].
  { left. cbn [trimStart]. rewrite H1, H2. reflexivity. }
  destruct (isWhiteSpace3 c1 c2 c3) eqn:H3.
  { right. exists (String c1 (String c2 (String c3 ""))), s3.
    split; [reflexivity |]. split; [simpl; lia |]. intros y.
    change (String c1 (String c2 (String c3 "")) +:+ y)
      with (String c1 (String c2 (String c3 y))).
    cbn [trimStart]. rewrite H1, H2, H3. reflexivity. }
  left. cbn [trimStart]. rewrite H1, H2, H3. reflexivity.
Qed.

Lemma trimStart_induction (P : string -> Prop) :
  (forall s, trimStart s = s -> P s) ->
  (forall p s', 0 < String.length p ->
                (forall y, trimStart (p +:+ y) = trimStart y) ->
                P s' -> P (p +:+ s')) ->
  forall s, P s.
Proof.
  intros Hstop Hstrip s.
  assert (H : forall n s, String.length s <= n -> P s);
    [| exact (H _ s (Nat.le_refl _))].
  clear s. induction n as [| n IH]; intros s Hlen.
  - apply Hstop. destruct s; [reflexivity | simpl in Hlen; lia].
  - destruct (trimStart_cases s) as [Hs | (p & s' & -> & Hp & Hy)].
    + apply Hstop, Hs.
    + apply Hstrip; [exact Hp | exact Hy |].
      apply IH. rewrite length_append in Hlen. lia.
Qed.

Lemma trimStart_idempotent (s : string) : trimStart (trimStart s) = trimStart s.
Proof.
  induction s as [s Hs | p s' _ Hy IH] using trimStart_induction.
  - rewrite !Hs. reflexivity.
  - rewrite Hy. exact IH.
Qed.

Lemma trimStart_shorter (s : string) :
  String.length (trimStart s) <= String.length s.
Proof.
  induction s as [s Hs | p s' _ Hy IH] using trimStart_induction.
  - rewrite Hs. reflexivity.
  - rewrite Hy, length_append. lia.
Qed.

Lemma isEmpty_true (s : string) : isEmpty s = true -> s = "".
Proof. destruct s; [reflexivity | discriminate]. Qed.

Lemma allWhiteSpace_append (x w : string) :
  allWhiteSpace x = true -> allWhiteSpace w = true ->
  allWhiteSpace (x +:+ w) = true.
Proof.
  unfold allWhiteSpace. intros Hx Hw.
  induction x as [x Hs | p x' _ Hy IH] using trimStart_induction.
  - rewrite Hs in Hx. apply isEmpty_true in Hx. subst x. exact Hw.
  - rewrite append_associative, Hy. apply IH. rewrite Hy in Hx. exact Hx.
Qed.

Lemma trimEnd_split (t : string) :
  exists w, t = trimEnd t +:+ w /\ allWhiteSpace w = true.
Proof.
  induction t as [| c t' (w & Hw & Hall)].
  - exists "". split; reflexivity.
  - cbn [trimEnd]. destruct (allWhiteSpace (String c t')) eqn:Hc.
    + exists (String c t'). split; [reflexivity | exact Hc].
    + exists w. split; [| exact Hall].
      change (String c t' = String c (trimEnd t' +:+ w)). rewrite <- Hw.
      reflexivity.
Qed.

Lemma trimEnd_idempotent (t : string) : trimEnd (trimEnd t) = trimEnd t.
Proof.
  induction t as [| c t' IH]; [reflexivity |].
  cbn [trimEnd]. destruct (allWhiteSpace (String c t')) eqn:Hc; [reflexivity |].
  cbn [trimEnd]. rewrite IH.
  destruct (allWhiteSpace (String c (trimEnd t'))) eqn:Hd; [| reflexivity].
  destruct (trimEnd_split t') as (w & Hw & Hall).
  pose proof (allWhiteSpace_append _ _ Hd Hall) as K.
  change (String c (trimEnd t') +:+ w) with (String c (trimEnd t' +:+ w)) in K.
  rewrite <- Hw, Hc in K. discriminate K.
Qed.

Lemma trimStart_trimEnd (t : string) :
  trimStart t = t -> trimStart (trimEnd t) = trimEnd t.
Proof.
  intros Ht.
  destruct (trimStart_cases (trimEnd t)) as [H | (p & u & Hu & Hp & Hy)];
    [exact H |].
  exfalso.
  destruct (trimEnd_split t) as (w & Hw & _).
  rewrite Hu, append_associative in Hw.
  pose proof (trimStart_shorter (u +:+ w)) as Hlen.
  rewrite <- Hy, <- Hw, Ht in Hlen.
  rewrite Hw in Hlen at 1. rewrite length_append in Hlen. lia.
Qed.

Lemma trim_idempotent (s : string) : trim (trim s) = trim s.
Proof.
  unfold trim.
  rewrite (trimStart_trimEnd (trimStart s)) by apply trimStart_idempotent.
  apply trimEnd_idempotent.
Qed.

Lemma trim_empty_iff (s : string) : trim s = "" <-> allWhiteSpace s = true.
Proof.
  unfold trim, allWhiteSpace. split.
  - intros H. destruct (trimStart s) as [| c t'] eqn:Ht; [reflexivity |].
    exfalso. cbn [trimEnd] in H.
    destruct (allWhiteSpace (String c t')) eqn:Hc; [| discriminate H].
    unfold allWhiteSpace in Hc. rewrite <- Ht, trimStart_idempotent, Ht in Hc.
    discriminate Hc.
  - intros H. apply isEmpty_true in H. rewrite H. reflexivity.
Qed.

(** Inputs padded with U+00A0, U+3000 or U+FEFF are trimmed like those
    padded with blanks. *)
Lemma trim_strips_unicode_white_space :
  let nbsp := String (ascii_of_nat 194) (String (ascii_of_nat 160) "") in
  let ideographic :=
    String (ascii_of_nat 227) (String (ascii_of_nat 128)
      (String (ascii_of_nat 128) "")) in
  let bom :=
    String (ascii_of_nat 239) (String (ascii_of_nat 187)
      (String (ascii_of_nat 191) "")) in
  trim (nbsp +:+ "yes" +:+ ideographic) = "yes"
  /\ isYes (nbsp +:+ "Yes")
  /\ isStartOver (nbsp +:+ "start over" +:+ bom)
  /\ trim (ideographic +:+ nbsp +:+ bom) = ""
  /\ trim ("dawn" +:+ nbsp +:+ "storm") = "dawn" +:+ nbsp +:+ "storm".
Proof. cbv zeta. repeat split; vm_compute; reflexivity. Qed.

Lemma isEmpty_trim (s : string) : isEmpty (trim s) = allWhiteSpace s.
Proof.
  destruct (allWhiteSpace s) eqn:H.
  - apply trim_empty_iff in H. rewrite H. reflexivity.
  - destruct (trim s) eqn:Ht; [| reflexivity].
    apply trim_empty_iff in Ht. congruence.
Qed.

(** ** Case analysis on events *)

(** Splits a goal about [dispatch e w] into the paths of the handlers: for a
    submit, the ignored input, the reset and one case per branch taken. *)
Ltac event_cases e w :=
  destruct e as [ input | o | input | index | n d | index | param
                | param value | param | | | | q | n ];
  unfold dispatch, onUi; cbn [ui inFlight requests];
  [ unfold handleSend; cbn [userInput setUserInput];
    destruct (isEmpty (trim input)) eqn:Hempty;
    [ | destruct (String.eqb_spec (toLowerCase (trim input)) "start over")
          as [Hreset | Hkeep];
        [ | repeat case_decide;
            try destruct (String.eqb_spec (toLowerCase (trim input)) "yes")
                  as [Hyes | Hno] ] ]
  | destruct (inFlight w);
    [ | unfold handleSend_resume, generateStory_settle;
        destruct o as [| status [| result]];
        [ | | destruct (prose_output result) ] ]
  | unfold handleAddBeat; cbn [newBeat setNewBeat];
    destruct (isEmpty (trim input)) eqn:Hempty; cbn [negb]
  |
  | unfold handleAddCharacter;
    destruct (negb (isEmpty (trim (newCharacterName
                (setNewCharacterDesc d (setNewCharacterName n (ui w))))))
              && negb (isEmpty (trim (newCharacterDesc
                (setNewCharacterDesc d (setNewCharacterName n (ui w)))))))
  |
  | unfold toggleEdit;
    destruct (String.eqb param "setting");
    [ | destruct (String.eqb param "genre");
        [ | destruct (String.eqb param "style") ] ]
  | unfold typeEdit;
    destruct (String.eqb param "setting");
    [ | destruct (String.eqb param "genre");
        [ | destruct (String.eqb param "style") ] ]
  | unfold saveEdit;
    destruct (String.eqb param "setting");
    [ | destruct (String.eqb param "genre");
        [ | destruct (String.eqb param "style") ] ]
  | |
  | unfold cycleLayoutMode; destruct (beforeGeneration (ui w)) eqn:Hbefore
  | | ].

Lemma invariant_run (P : Session -> Prop) (Q : Event -> Prop) :
  (forall e w, Q e -> P w -> P (dispatch e w)) ->
  forall es w, Forall Q es -> P w -> P (run es w).
Proof.
  intros Hstep es. induction es as [| e es IH]; intros w Hall Hw.
  - exact Hw.
  - rewrite run_cons. inversion Hall; subst. apply IH; auto.
Qed.

(** ** The message log only grows (X2) *)

Lemma messages_grow (e : Event) (w : Session) :
  notReset e ->
  messages (ui w) `prefix_of` messages (ui (dispatch e w)).
Proof.
  intros Hn. event_cases e w;
    try (exfalso; exact (Hn Hreset));
    simpl; repeat apply prefix_app_r; reflexivity.
Qed.

(** X2.  Messages are append-only within a session: as long as no input is
    the reset command, the log before any sequence of events is a prefix of
    the log after it.  No handler edits or drops a message. *)
Theorem X2_messages_append_only (es : list Event) (w : Session) :
  Forall notReset es ->
  messages (ui w) `prefix_of` messages (ui (run es w)).
Proof.
  intros Hall.
  apply (invariant_run
           (fun w' => messages (ui w) `prefix_of` messages (ui w')) notReset);
    [| exact Hall | reflexivity].
  intros e w' He Hw'. etransitivity; [exact Hw' | apply messages_grow, He].
Qed.

Lemma X2_witness :
  let es := [ Submit "dawn"; AddBeat "storm"; Submit "no"; Submit " ";
              RemoveBeat 0; Submit "Ana"; CycleLayout ] in
  Forall notReset es
  /\ messages (ui initialSession) `prefix_of` messages (ui (run es initialSession)).
Proof.
  cbv zeta.
  match goal with |- ?A /\ _ =>
    assert (H : A) by (repeat constructor; vm_compute; discriminate)
  end.
  split; [exact H | exact (X2_messages_append_only _ initialSession H)].
Defined.

(** ** Where requests come from (X3) *)

Lemma requests_after (e : Event) (w : Session) :
  requests (dispatch e w) = requests w
  \/ exists input,
       e = Submit input /\ isYes input /\ step (ui w) = STEPS !! "CONFIRM"
       /\ requests (dispatch e w) = requests w ++ [payloadOf (ui w)].
Proof.
  event_cases e w;
    first [ left; reflexivity
          | right; exists input; repeat split; (reflexivity || assumption) ].
Qed.

Lemma yes_sends (w : Session) (input : string) :
  isYes input ->
  step (ui w) = STEPS !! "CONFIRM" ->
  requests (dispatch (Submit input) w) = requests w ++ [payloadOf (ui w)]
  /\ inFlight (dispatch (Submit input) w) = S (inFlight w)
  /\ loading (ui (dispatch (Submit input) w)) = true
  /\ step (ui (dispatch (Submit input) w)) = STEPS !! "GENERATE".
Proof.
  intros Hy Hs. unfold dispatch.
  rewrite handleSend_CONFIRM_yes.
  - repeat split; reflexivity.
  - exact (command_not_empty _ "yes" Hy eq_refl).
  - cbn [userInput setUserInput]. unfold isYes in Hy. rewrite Hy. discriminate.
  - exact Hs.
  - exact Hy.
Qed.

(** X3.  A generation request is sent by "yes" (trimmed, in any letter case)
    at CONFIRM and by nothing else.  The request carries the parameters and
    controls of that moment as they are; nothing is checked before sending,
    so it goes out with an empty beat list as well.  Every other event leaves
    the list of requests as it was. *)
Theorem X3_requests_only_from_yes_at_confirm :
  (forall (e : Event) (w : Session),
      requests (dispatch e w) = requests w
      \/ exists input,
           e = Submit input /\ isYes input /\ step (ui w) = STEPS !! "CONFIRM"
           /\ requests (dispatch e w) = requests w ++ [payloadOf (ui w)])
  /\ (forall (w : Session) (input : string),
        isYes input ->
        step (ui w) = STEPS !! "CONFIRM" ->
        requests (dispatch (Submit input) w) = requests w ++ [payloadOf (ui w)]
        /\ inFlight (dispatch (Submit input) w) = S (inFlight w)
        /\ loading (ui (dispatch (Submit input) w)) = true
        /\ step (ui (dispatch (Submit input) w)) = STEPS !! "GENERATE").
Proof. split; [exact requests_after | exact yes_sends]. Qed.

Lemma X3_witness :
  let w := dispatch (RemoveBeat 0) atConfirm in
  (isYes " YES " /\ step (ui w) = STEPS !! "CONFIRM")
  /\ requests (dispatch (Submit " YES ") w)
     = [mkPayload [] [mkCharacter "Ana" "A pilot" "#f44336"]
          "A ship" "Sci-Fi" "Tense" (7 # 10)%Q 1000%Z].
Proof.
  cbv zeta.
  match goal with |- (?A /\ ?B) /\ _ =>
    assert (H1 : A) by reflexivity;
    assert (H2 : B) by (vm_compute; reflexivity)
  end.
  split; [auto |].
  rewrite (proj1 (proj2 X3_requests_only_from_yes_at_confirm _ " YES " H1 H2)).
  vm_compute. reflexivity.
Defined.

(** ** Invariants of reachable sessions (X4, X5, X6) *)

Lemma reachable_invariant (P : Session -> Prop) :
  P initialSession ->
  (forall e w, P w -> P (dispatch e w)) ->
  forall w, reachable w -> P w.
Proof.
  intros H0 Hstep w [es ->].
  apply (invariant_run P (fun _ => True)); auto.
  clear. induction es; constructor; auto.
Qed.

Lemma Forall_filterFrom {A : Type} (P : A -> Prop) (p : A -> Z -> bool)
    (k : Z) (l : list A) :
  Forall P l -> Forall P (filterFrom p k l).
Proof.
  intros H. revert k. induction H as [| x l Hx _ IH]; intros k; simpl.
  - constructor.
  - destruct (p x k); [constructor; [exact Hx |] |]; apply IH.
Qed.

Lemma storedBeat_trim (s : string) : isEmpty (trim s) = false -> storedBeat (trim s).
Proof.
  intros H. split.
  - intros E. rewrite E in H. discriminate H.
  - apply trim_idempotent.
Qed.

Lemma storedBeats_kept (e : Event) (w : Session) :
  Forall storedBeat (beats (storyOf w)) ->
  Forall storedBeat (beats (storyOf (dispatch e w))).
Proof.
  unfold storyOf. intros H. event_cases e w; simpl;
    first [ exact H
          | constructor
          | apply Forall_filterFrom; exact H
          | apply Forall_app; split;
            [exact H | repeat constructor; apply storedBeat_trim; assumption] ].
Qed.

(** X4.  In every session that can be reached from the initial one, by any
    events in any order, each beat is a non-empty string without white space
    at either end: both ways of adding a beat trim the text and refuse the
    empty result, and nothing else writes a beat. *)
Theorem X4_beats_are_trimmed_and_not_empty (w : Session) :
  reachable w ->
  Forall (fun b => b <> "" /\ trim b = b) (beats (storyOf w)).
Proof.
  apply (reachable_invariant (fun w => Forall storedBeat (beats (storyOf w)))).
  - constructor.
  - intros e w' H. apply storedBeats_kept, H.
Qed.

Lemma X4_witness :
  let w := run [Submit "  dawn "; Submit "yes"; Submit "   "; AddBeat " storm  ";
                AddBeat "  "] initialSession in
  reachable w
  /\ beats (storyOf w) = ["dawn"; "storm"]
  /\ Forall (fun b => b <> "" /\ trim b = b) (beats (storyOf w)).
Proof.
  cbv zeta.
  match goal with |- reachable ?w /\ _ =>
    assert (H : reachable w) by (eexists; reflexivity)
  end.
  split; [exact H |]. split; [vm_compute; reflexivity |].
  exact (X4_beats_are_trimmed_and_not_empty _ H).
Defined.

Lemma knownStep_lookup (k : string) : knownStep (STEPS !! k).
Proof.
  destruct (STEPS !! k) as [n |] eqn:Hk.
  - right. exists k, n. auto.
  - left. reflexivity.
Qed.

Lemma knownStep_kept (e : Event) (w : Session) :
  knownStep (step (ui w)) -> knownStep (step (ui (dispatch e w))).
Proof.
  intros H. event_cases e w; simpl;
    first [ exact H | apply knownStep_lookup ].
Qed.

(** X5.  In every reachable session the step is [undefined] or one of the
    numbers 0 to 9 of [STEPS]: every step that a handler stores is read from
    the table, and the only key read that the table misses is
    [STEPS.CHARACTERS]. *)
Theorem X5_step_is_in_table_or_undefined (w : Session) :
  reachable w ->
  step (ui w) = None \/ exists n, step (ui w) = Some n /\ n <= 9.
Proof.
  intros Hr.
  assert (H : knownStep (step (ui w))).
  { revert w Hr. apply reachable_invariant.
    - apply knownStep_lookup.
    - intros e w' H. apply knownStep_kept, H. }
  destruct H as [H | (k & n & Hk & Hn)]; [left; exact H |].
  right. exists n. split; [exact Hn |].
  unfold STEPS in Hk.
  apply elem_of_list_to_map_2 in Hk.
  repeat (apply elem_of_cons in Hk as [Hk | Hk]; [injection Hk as _ ->; lia |]).
  inversion Hk.
Qed.

Lemma X5_witness :
  reachable atDescription
  /\ (step (ui atDescription) = None
      \/ exists n, step (ui atDescription) = Some n /\ n <= 9).
Proof.
  assert (H : reachable atDescription) by (eexists; reflexivity).
  split; [exact H | exact (X5_step_is_in_table_or_undefined _ H)].
Defined.

Lemma phaseConsistent_kept (e : Event) (w : Session) :
  phaseConsistent (ui w) -> phaseConsistent (ui (dispatch e w)).
Proof.
  unfold phaseConsistent, beforeGeneration. intros H.
  event_cases e w; simpl in *;
    first [ exact H | exact I
          | destruct (layoutMode (ui w)); simpl; first [exact I | assumption] ].
Qed.

(** X6.  In every reachable session the layout mode fits the phase: it is
    "chatOnly" only while no story is stored and "storyOnly" only while one
    is.  The reset and a settled call put the mode back to "both", and the
    toggle picks its alternative by the stored story. *)
Theorem X6_layout_mode_fits_phase (w : Session) :
  reachable w ->
  (layoutMode (ui w) = chatOnly -> beforeGeneration (ui w) = true)
  /\ (layoutMode (ui w) = storyOnly -> beforeGeneration (ui w) = false).
Proof.
  intros Hr.
  assert (H : phaseConsistent (ui w)).
  { revert w Hr. apply reachable_invariant.
    - exact I.
    - intros e w' H. apply phaseConsistent_kept, H. }
  unfold phaseConsistent in H.
  destruct (layoutMode (ui w)); split; intros E; try discriminate E; exact H.
Qed.

Lemma X6_witness :
  let w := run [CycleLayout; Submit "start over"; CycleLayout] afterStory in
  reachable w
  /\ layoutMode (ui w) = chatOnly
  /\ beforeGeneration (ui w) = true.
Proof.
  cbv zeta.
  match goal with |- reachable ?w /\ _ =>
    assert (H : reachable w)
      by (exists (linearPath "The ship leaves"
                    ++ [Submit "yes"; Settle (storyAnswer 200 "Once.")]
                    ++ [CycleLayout; Submit "start over"; CycleLayout]);
          vm_compute; reflexivity)
  end.
  split; [exact H |].
  assert (E : layoutMode (ui (run [CycleLayout; Submit "start over"; CycleLayout]
                                afterStory)) = chatOnly)
    by (vm_compute; reflexivity).
  split; [exact E | exact (proj1 (X6_layout_mode_fits_phase _ H) E)].
Defined.

(** ** Blank input (X1) *)

(** X1.  An input made of white space only, of any of the code points that
    [trim] strips, is dropped by the submit handler: no message, no
    transition, no change of the parameters, no request.  The session is as
    before except that the text is still in the input box. *)
Theorem X1_blank_input_is_ignored (w : Session) (input : string) :
  allWhiteSpace input = true ->
  dispatch (Submit input) w = onUi (setUserInput input) w
  /\ step (ui (dispatch (Submit input) w)) = step (ui w)
  /\ messages (ui (dispatch (Submit input) w)) = messages (ui w)
  /\ storyOf (dispatch (Submit input) w) = storyOf w
  /\ requests (dispatch (Submit input) w) = requests w.
Proof.
  intros H. unfold dispatch.
  rewrite handleSend_ignored
    by (cbn [userInput setUserInput]; rewrite isEmpty_trim; exact H).
  repeat split; reflexivity.
Qed.

Lemma X1_witness :
  let blank :=
    String (ascii_of_nat 9)
      (String (ascii_of_nat 194) (String (ascii_of_nat 160)
         (String (ascii_of_nat 227) (String (ascii_of_nat 128)
            (String (ascii_of_nat 128) "  "))))) in
  allWhiteSpace blank = true
  /\ dispatch (Submit blank) atConfirm = onUi (setUserInput blank) atConfirm.
Proof.
  cbv zeta.
  match goal with |- ?A /\ _ => assert (H : A) by reflexivity end.
  split; [exact H | exact (proj1 (X1_blank_input_is_ignored atConfirm _ H))].
Defined.

(** ** A reset does not cancel a call in flight (X7) *)

Lemma reset_at_any_step (w : Session) (input : string) :
  isStartOver input ->
  dispatch (Submit input) w
  = mkSession (startOver (echo (trim input) (setUserInput input (ui w))))
      (inFlight w) (requests w).
Proof.
  intros H. unfold dispatch. rewrite handleSend_startOver by exact H.
  reflexivity.
Qed.

(** X7.  The reset neither cancels nor marks a call that is in flight.  After
    "yes" at CONFIRM and then "start over", the loading flag is still raised
    and the call is still awaited; when it settles with a story, the answer
    is applied to the fresh session, which jumps to EXTEND with the story
    stored while its parameters are empty and its log holds only the welcome
    and the success message. *)
Theorem X7_late_answer_lands_in_fresh_session
    (w : Session) (status : nat) (prose : string) :
  step (ui w) = STEPS !! "CONFIRM" ->
  let w1 := run [Submit "yes"; Submit "start over"] w in
  let w2 := dispatch (Settle (storyAnswer status prose)) w1 in
  step (ui w1) = STEPS !! "BEAT"
  /\ loading (ui w1) = true
  /\ inFlight w1 = S (inFlight w)
  /\ step (ui w2) = STEPS !! "EXTEND"
  /\ storyOf w2 = mkData [] [] "" "" ""
  /\ generatedStory (ui w2) = Value (JString prose)
  /\ messages (ui w2)
     = [ mkMessage bot initialMessage;
         mkMessage bot "Story generated. To view the full story, use the toggle button. Type 'start over' to reset." ]
  /\ loading (ui w2) = false.
Proof.
  intros Hs. cbv zeta.
  rewrite !run_cons, (yes_at_confirm w Hs).
  rewrite (reset_at_any_step _ "start over" eq_refl).
  unfold run, foldl.
  repeat split; reflexivity.
Qed.

Lemma X7_witness :
  step (ui atConfirm) = STEPS !! "CONFIRM"
  /\ let w2 := run [Submit "yes"; Submit "start over";
                    Settle (storyAnswer 200 "Once.")] atConfirm in
     step (ui w2) = STEPS !! "EXTEND" /\ storyOf w2 = mkData [] [] "" "" "".
Proof.
  assert (H : step (ui atConfirm) = STEPS !! "CONFIRM")
    by (vm_compute; reflexivity).
  split; [exact H |].
  pose proof (X7_late_answer_lands_in_fresh_session atConfirm 200 "Once." H) as K.
  cbv zeta in K. destruct K as (_ & _ & _ & K4 & K5 & _).
  split; [exact K4 | exact K5].
Defined.

(** ** A story arrives (X8) *)

(** X8.  When the call made by "yes" at CONFIRM is answered with a body whose
    [prose_output] is a non-empty string, that string is stored, the step is
    EXTEND, loading is cleared, the layout mode is "both" and the widths
    computed for the panels are 8 and 4.  From then on the toggle alternates
    the layout mode between "both" and "storyOnly"; in "storyOnly" the
    computed widths are 0 and 12 and the flag that guards the chat panel is
    off. *)
Theorem X8_story_is_stored_and_layout_follows
    (w : Session) (status : nat) (result : Json) (prose : string) :
  step (ui w) = STEPS !! "CONFIRM" ->
  prose_output result = Some (Value (JString prose)) ->
  prose <> "" ->
  let w' := run [Submit "yes"; Settle (Responded status (Parsed result))] w in
  step (ui w') = STEPS !! "EXTEND"
  /\ generatedStory (ui w') = Value (JString prose)
  /\ beforeGeneration (ui w') = false
  /\ loading (ui w') = false
  /\ layoutMode (ui w') = both
  /\ (leftPanelWidth (ui w'), rightPanelWidth (ui w')) = (8, 4)
  /\ layoutMode (ui (dispatch CycleLayout w')) = storyOnly
  /\ (leftPanelWidth (ui (dispatch CycleLayout w')),
      rightPanelWidth (ui (dispatch CycleLayout w'))) = (0, 12)
  /\ chatVisible (ui (dispatch CycleLayout w')) = false
  /\ layoutMode (ui (run [CycleLayout; CycleLayout] w')) = both.
Proof.
  intros Hs Hr Hp. cbv zeta.
  rewrite (yes_then_settle w _ Hs).
  unfold handleSend_resume. cbn [ui].
  rewrite generateStory_settle_stored with (v := Value (JString prose))
    by exact Hr.
  destruct prose as [| c rest]; [contradiction |].
  repeat split; reflexivity.
Qed.

Lemma X8_witness :
  (step (ui atConfirm) = STEPS !! "CONFIRM"
   /\ prose_output (JObject [("prose_output", JString "Once."); ("tokens", JNumber 12)])
      = Some (Value (JString "Once."))
   /\ "Once." <> "")
  /\ let w' := run [Submit "yes";
                    Settle (Responded 200
                      (Parsed (JObject [("prose_output", JString "Once.");
                                        ("tokens", JNumber 12)])))] atConfirm in
     step (ui w') = STEPS !! "EXTEND"
     /\ chatVisible (ui (dispatch CycleLayout w')) = false.
Proof.
  assert (H1 : step (ui atConfirm) = STEPS !! "CONFIRM")
    by (vm_compute; reflexivity).
  assert (H2 : prose_output (JObject [("prose_output", JString "Once.");
                                       ("tokens", JNumber 12)])
               = Some (Value (JString "Once."))) by reflexivity.
  assert (H3 : "Once." <> "") by discriminate.
  split; [auto |].
  pose proof (X8_story_is_stored_and_layout_follows atConfirm 200 _ "Once."
                H1 H2 H3) as K.
  cbv zeta in K. destruct K as (K1 & _ & _ & _ & _ & _ & _ & _ & K9 & _).
  split; [exact K1 | exact K9].
Defined.

(** ** Panels and the toggle (X9, X10) *)

(** X9.  Whatever the state, the two widths computed for the panels add up
    to the 12 columns of the grid, the flag that guards the chat panel is on
    exactly when the left width is not zero, and at least one of the two
    flags that guard the panels is on. *)
Theorem X9_panel_widths_fill_the_grid (st : State) :
  leftPanelWidth st + rightPanelWidth st = 12
  /\ chatVisible st = (0 <? leftPanelWidth st)%nat
  /\ chatVisible st || rightVisible st = true.
Proof.
  unfold rightVisible, chatVisible, leftPanelWidth, rightPanelWidth.
  destruct (beforeGeneration st), (layoutMode st); repeat split; reflexivity.
Qed.

Lemma cycle_twice (st : State) :
  phaseConsistent st -> cycleLayoutMode (cycleLayoutMode st) = st.
Proof.
  unfold phaseConsistent, cycleLayoutMode, beforeGeneration.
  destruct st as [? ? ? ? ? ? ? ? ? ? ? ? ? ? ? ? ? story ? ? mode ?].
  cbn [layoutMode generatedStory setLayoutMode_fn setLayoutMode].
  destruct mode; intros H; try rewrite H;
    destruct story as [| [| | | [| c rest] | |]]; try discriminate H;
    reflexivity.
Qed.

(** X10.  In every reachable session pressing the toggle twice brings back
    exactly the state before: the toggle changes the layout mode only and is
    its own inverse. *)
Theorem X10_toggle_twice_restores (w : Session) :
  reachable w ->
  run [CycleLayout; CycleLayout] w = w.
Proof.
  intros Hr.
  assert (H : phaseConsistent (ui w)).
  { revert w Hr. apply reachable_invariant.
    - exact I.
    - intros e w' H. apply phaseConsistent_kept, H. }
  destruct w as [st n r]. unfold run, foldl, dispatch, onUi.
  cbn [ui inFlight requests] in *. rewrite (cycle_twice st H). reflexivity.
Qed.

Lemma X10_witness :
  let w := dispatch CycleLayout afterStory in
  reachable w
  /\ layoutMode (ui w) = storyOnly
  /\ run [CycleLayout; CycleLayout] w = w.
Proof.
  cbv zeta.
  match goal with |- reachable ?w /\ _ =>
    assert (H : reachable w)
      by (exists (linearPath "The ship leaves"
                    ++ [Submit "yes"; Settle (storyAnswer 200 "Once.")]
                    ++ [CycleLayout]);
          vm_compute; reflexivity)
  end.
  split; [exact H |]. split; [vm_compute; reflexivity |].
  exact (X10_toggle_twice_restores _ H).
Defined.

(** ** Editing setting, genre and style (X11, X12) *)

(** X11.  Opening the editor of a parameter, typing a value and saving writes
    exactly that value, untrimmed and possibly empty, into that one
    parameter, leaves the other parameters alone and closes the editor. *)
Theorem X11_edit_commit_writes_the_typed_value (w : Session) (v : string) :
  (let w' := run [ToggleEdit "setting"; TypeEdit "setting" v; SaveEdit "setting"] w in
   storyOf w' = withSetting (storyOf w) v /\ editingSetting (ui w') = false)
  /\ (let w' := run [ToggleEdit "genre"; TypeEdit "genre" v; SaveEdit "genre"] w in
      storyOf w' = withGenre (storyOf w) v /\ editingGenre (ui w') = false)
  /\ (let w' := run [ToggleEdit "style"; TypeEdit "style" v; SaveEdit "style"] w in
      storyOf w' = withStyle (storyOf w) v /\ editingStyle (ui w') = false).
Proof. repeat split; reflexivity. Qed.

Lemma unknown_param_ignored (param : string) (st : State) :
  param <> "setting" -> param <> "genre" -> param <> "style" ->
  toggleEdit param st = st
  /\ (forall v, typeEdit param v st = st)
  /\ saveEdit param st = st.
Proof.
  intros H1 H2 H3. unfold toggleEdit, typeEdit, saveEdit.
  destruct (String.eqb_spec param "setting"); [contradiction |].
  destruct (String.eqb_spec param "genre"); [contradiction |].
  destruct (String.eqb_spec param "style"); [contradiction |].
  auto.
Qed.

(** X12.  An edit that is not saved is discarded: opening the editor of a
    parameter, typing, and toggling the editor again leaves the parameters as
    they were, puts the editing flag back and overwrites the staged text with
    the stored value.  A parameter name other than "setting", "genre" and
    "style" makes the three edit handlers do nothing at all. *)
Theorem X12_unsaved_edit_is_discarded :
  (forall (w : Session) (v : string),
      (let w' := run [ToggleEdit "setting"; TypeEdit "setting" v; ToggleEdit "setting"] w in
       storyOf w' = storyOf w
       /\ editingSetting (ui w') = editingSetting (ui w)
       /\ tempSetting (ui w') = setting (storyOf w))
      /\ (let w' := run [ToggleEdit "genre"; TypeEdit "genre" v; ToggleEdit "genre"] w in
          storyOf w' = storyOf w
          /\ editingGenre (ui w') = editingGenre (ui w)
          /\ tempGenre (ui w') = genre (storyOf w))
      /\ (let w' := run [ToggleEdit "style"; TypeEdit "style" v; ToggleEdit "style"] w in
          storyOf w' = storyOf w
          /\ editingStyle (ui w') = editingStyle (ui w)
          /\ tempStyle (ui w') = style (storyOf w)))
  /\ (forall (w : Session) (param v : string),
        param <> "setting" -> param <> "genre" -> param <> "style" ->
        dispatch (ToggleEdit param) w = w
        /\ dispatch (TypeEdit param v) w = w
        /\ dispatch (SaveEdit param) w = w).
Proof.
  split.
  - intros w v. cbv zeta. unfold run, foldl, dispatch, onUi, storyOf.
    cbn. rewrite !negb_involutive. repeat split; reflexivity.
  - intros [st n r] param v H1 H2 H3. unfold dispatch, onUi.
    cbn [ui inFlight requests].
    destruct (unknown_param_ignored param st H1 H2 H3) as (K1 & K2 & K3).
    rewrite K1, K2, K3. auto.
Qed.

Lemma X12_witness :
  ("title" <> "setting" /\ "title" <> "genre" /\ "title" <> "style")
  /\ dispatch (SaveEdit "title") atConfirm = atConfirm.
Proof.
  assert (H1 : "title" <> "setting") by discriminate.
  assert (H2 : "title" <> "genre") by discriminate.
  assert (H3 : "title" <> "style") by discriminate.
  split; [auto |].
  exact (proj2 (proj2 (proj2 X12_unsaved_edit_is_discarded
                         atConfirm "title" "" H1 H2 H3))).
Defined.

(** ** Adding from the parameters panel (X13) *)

(** X13.  The add handlers of the panel refuse blank text and do nothing at
    all then: a beat that is white space only, or a character whose name or
    description is white space only, changes no parameter and is left in its
    field.  A character with both texts present is appended with the trimmed
    texts and the palette colour at the current number of characters, and
    its fields are cleared and closed. *)
Theorem X13_panel_adds_refuse_blank_text :
  (forall (w : Session) (input : string),
      allWhiteSpace input = true ->
      dispatch (AddBeat input) w = onUi (setNewBeat input) w)
  /\ (forall (w : Session) (n d : string),
        allWhiteSpace n = true \/ allWhiteSpace d = true ->
        dispatch (AddCharacter n d) w
        = onUi (fun st => setNewCharacterDesc d (setNewCharacterName n st)) w)
  /\ (forall (w : Session) (n d : string),
        allWhiteSpace n = false ->
        allWhiteSpace d = false ->
        let w' := dispatch (AddCharacter n d) w in
        storyOf w'
        = withCharacters (storyOf w)
            (characters (storyOf w)
               ++ [mkCharacter (trim n) (trim d)
                     (colorAt (length (characters (storyOf w))))])
        /\ newCharacterName (ui w') = ""
        /\ newCharacterDesc (ui w') = ""
        /\ showNewCharacterInput (ui w') = false).
Proof.
  split; [| split].
  - intros w input H. unfold dispatch, onUi, handleAddBeat.
    cbn [newBeat setNewBeat]. rewrite isEmpty_trim, H. reflexivity.
  - intros w n d H. unfold dispatch, onUi, handleAddCharacter.
    cbn [newCharacterName newCharacterDesc setNewCharacterName
         setNewCharacterDesc].
    rewrite !isEmpty_trim.
    destruct H as [H | H]; rewrite H; [| rewrite andb_false_r]; reflexivity.
  - intros w n d Hn Hd. cbv zeta. unfold dispatch, onUi, handleAddCharacter.
    cbn [newCharacterName newCharacterDesc setNewCharacterName
         setNewCharacterDesc].
    rewrite !isEmpty_trim, Hn, Hd. repeat split; reflexivity.
Qed.

Lemma X13_witness :
  (allWhiteSpace "Bo" = false /\ allWhiteSpace "  " = true)
  /\ dispatch (AddCharacter "Bo" "  ") atConfirm
     = onUi (fun st => setNewCharacterDesc "  " (setNewCharacterName "Bo" st))
         atConfirm.
Proof.
  assert (H1 : allWhiteSpace "Bo" = false) by reflexivity.
  assert (H2 : allWhiteSpace "  " = true) by reflexivity.
  split; [auto |].
  exact (proj1 (proj2 X13_panel_adds_refuse_blank_text)
           atConfirm "Bo" "  " (or_intror H2)).
Defined.

(** ** Removing a character (X14) *)

Lemma removeCharacter_out_of_range (index : Z) (st : State) :
  (index < 0 \/ Z.of_nat (length (characters (data st))) <= index)%Z ->
  removeCharacter index st = st.
Proof.
  intros H. unfold removeCharacter, setData_fn, setData, withCharacters.
  rewrite filterIndexed_out_of_range by exact H.
  destruct st as [? [? ? ? ? ?] ? ? ? ? ? ? ? ? ? ? ? ? ? ? ? ? ? ? ? ?].
  reflexivity.
Qed.

(** X14.  Removing the character at a position that exists deletes that one
    entry: the list is one shorter, the characters before the position stay
    where they are and those after it move up by one, each with its name,
    description and colour, and nothing else in the parameters changes.  A
    position that does not exist, negative or past the end, leaves the whole
    session as it was. *)
Theorem X14_remove_character_deletes_one_position :
  (forall (w : Session) (index : Z),
      (0 <= index < Z.of_nat (length (characters (storyOf w))))%Z ->
      let w' := dispatch (RemoveCharacter index) w in
      storyOf w'
      = withCharacters (storyOf w)
          (delete (Z.to_nat index) (characters (storyOf w)))
      /\ S (length (characters (storyOf w'))) = length (characters (storyOf w))
      /\ (forall j, j < Z.to_nat index ->
            characters (storyOf w') !! j = characters (storyOf w) !! j)
      /\ (forall j, Z.to_nat index <= j ->
            characters (storyOf w') !! j = characters (storyOf w) !! S j))
  /\ (forall (w : Session) (index : Z),
        (index < 0 \/ Z.of_nat (length (characters (storyOf w))) <= index)%Z ->
        dispatch (RemoveCharacter index) w = w).
Proof.
  split.
  - intros w index H. cbv zeta.
    assert (E : storyOf (dispatch (RemoveCharacter index) w)
                = withCharacters (storyOf w)
                    (delete (Z.to_nat index) (characters (storyOf w)))).
    { unfold dispatch, onUi, storyOf, removeCharacter, setData_fn.
      cbn [ui data setData]. rewrite filterIndexed_delete.
      destruct (Z.leb_spec 0 index); [reflexivity | lia]. }
    rewrite E. cbn [characters withCharacters].
    split; [reflexivity |]. split; [| split].
    + rewrite length_delete by (apply lookup_lt_is_Some; lia).
      pose proof (Nat.lt_le_pred (Z.to_nat index)
                    (length (characters (storyOf w)))). lia.
    + intros j Hj. apply list_lookup_delete_lt, Hj.
    + intros j Hj. apply list_lookup_delete_ge, Hj.
  - intros [st n r] index H. unfold dispatch, onUi. cbn [ui inFlight requests].
    rewrite removeCharacter_out_of_range by exact H. reflexivity.
Qed.

Lemma X14_witness :
  let w := dispatch (AddCharacter "Bo" "A cook") atConfirm in
  ((0 <= 0 < Z.of_nat (length (characters (storyOf w))))%Z
   /\ (5 < 0 \/ Z.of_nat (length (characters (storyOf w))) <= 5)%Z)
  /\ characters (storyOf (dispatch (RemoveCharacter 0) w))
     = [mkCharacter "Bo" "A cook" "#4caf50"]
  /\ dispatch (RemoveCharacter 5) w = w.
Proof.
  cbv zeta.
  match goal with |- (?A /\ ?B) /\ _ =>
    assert (H1 : A) by (vm_compute; split; [discriminate | reflexivity]);
    assert (H2 : B) by (right; vm_compute; discriminate)
  end.
  split; [auto |]. split.
  - rewrite (proj1 (proj1 X14_remove_character_deletes_one_position _ 0%Z H1)).
    vm_compute. reflexivity.
  - exact (proj2 X14_remove_character_deletes_one_position _ 5%Z H2).
Defined.

(** ** More branches of [handleSend] *)

Section LoopBranches.
Variable st : State.
Hypothesis Hinput : isEmpty (trim (userInput st)) = false.
Hypothesis Hkeep : toLowerCase (trim (userInput st)) <> "start over".

Ltac enter_branch :=
  unfold handleSend; rewrite Hinput;
  destruct (String.eqb_spec (toLowerCase (trim (userInput st))) "start over")
    as [?|_]; [contradiction|].

Lemma handleSend_BEAT_CONFIRM_yes :
  step st = STEPS !! "BEAT_CONFIRM" ->
  toLowerCase (trim (userInput st)) = "yes" ->
  handleSend st =
    (setUserInput ""
       (setStep (STEPS !! "BEAT")
          (setCurrentPrompt "Enter your next Story Beat:"
             (say "Please enter your next Story Beat:"
                (echo (trim (userInput st)) st)))), None).
Proof. intros Hs Hy. enter_branch. rewrite Hs, Hy. decide_steps. reflexivity. Qed.

Lemma handleSend_CHARACTER_NAME :
  step st = STEPS !! "CHARACTER_NAME" ->
  handleSend st =
    (setUserInput ""
       (setStep (STEPS !! "CHARACTER_DESCRIPTION")
          (setCurrentPrompt "Enter character description:"
             (say "Now enter the character's description:"
                (setCurrentCharName (trim (userInput st))
                   (echo (trim (userInput st)) st))))), None).
Proof. intros Hs. enter_branch. rewrite Hs. decide_steps. reflexivity. Qed.

Lemma handleSend_CHARACTERS_yes :
  step st = STEPS !! "CHARACTERS" ->
  toLowerCase (trim (userInput st)) = "yes" ->
  handleSend st =
    (setUserInput ""
       (setStep (STEPS !! "CHARACTER_NAME")
          (setCurrentPrompt "Enter character name:"
             (say "Please enter the name of your next character:"
                (echo (trim (userInput st)) st)))), None).
Proof. intros Hs Hy. enter_branch. rewrite Hs, Hy. decide_steps. reflexivity. Qed.

Lemma handleSend_CHARACTERS_else :
  step st = STEPS !! "CHARACTERS" ->
  toLowerCase (trim (userInput st)) <> "yes" ->
  handleSend st =
    (setUserInput ""
       (setStep (STEPS !! "SETTING")
          (setCurrentPrompt "Enter the Setting:"
             (say "Characters saved. Now, please enter the Setting of your story:"
                (echo (trim (userInput st)) st)))), None).
Proof.
  intros Hs Hy. enter_branch. rewrite Hs. decide_steps.
  destruct (String.eqb_spec (toLowerCase (trim (userInput st))) "yes") as [?|_];
    [contradiction | reflexivity].
Qed.

Lemma handleSend_STYLE :
  step st = STEPS !! "STYLE" ->
  handleSend st =
    (setUserInput ""
       (setStep (STEPS !! "CONFIRM")
          (setCurrentPrompt "Generate your story? (yes/no)"
             (say (summaryText (data st))
                (setData_fn (fun prev => withStyle prev (trim (userInput st)))
                   (echo (trim (userInput st)) st))))), None).
Proof. intros Hs. enter_branch. rewrite Hs. decide_steps. reflexivity. Qed.

End LoopBranches.

(** ** Collecting beats in the conversation (X15) *)

Lemma withBeats_same (d : StoryData) : withBeats d (beats d) = d.
Proof. destruct d. reflexivity. Qed.

Lemma beat_taken (w : Session) (b : string) :
  step (ui w) = STEPS !! "BEAT" ->
  accepted b ->
  dispatch (Submit b) w
  = mkSession
      (setUserInput ""
         (setStep (STEPS !! "BEAT_CONFIRM")
            (setCurrentPrompt "Do you want to add another beat? (yes/no)"
               (say "Beat added. Do you want to add another beat? (yes/no)"
                  (setData_fn (fun prev => withBeats prev (beats prev ++ [trim b]))
                     (echo (trim b) (setUserInput b (ui w))))))))
      (inFlight w) (requests w).
Proof.
  intros Hs [He Hn]. unfold dispatch.
  rewrite handleSend_BEAT by assumption. reflexivity.
Qed.

Lemma beat_round (w : Session) (b : string) :
  step (ui w) = STEPS !! "BEAT" ->
  accepted b ->
  let w' := run [Submit b; Submit "yes"] w in
  step (ui w') = STEPS !! "BEAT"
  /\ storyOf w' = withBeats (storyOf w) (beats (storyOf w) ++ [trim b]).
Proof.
  intros Hs Hb. cbv zeta. rewrite !run_cons. unfold run, foldl.
  rewrite (beat_taken w b Hs Hb).
  unfold dispatch.
  rewrite handleSend_BEAT_CONFIRM_yes by (reflexivity || discriminate).
  split; reflexivity.
Qed.

(** X15.  The beat loop of the conversation collects beats in the order they
    are entered.  From a session at BEAT, entering any number of beats, each
    followed by "yes", ends at BEAT again with the trimmed beats appended in
    order to those already there, duplicates included, and with the other
    parameters untouched.  A beat is any input that is not blank and not the
    reset command; "yes" and "no" are beats like any other text there. *)
Theorem X15_beat_loop_collects_in_order (bs : list string) (w : Session) :
  step (ui w) = STEPS !! "BEAT" ->
  Forall accepted bs ->
  let w' := run (beatLoop bs) w in
  step (ui w') = STEPS !! "BEAT"
  /\ storyOf w' = withBeats (storyOf w) (beats (storyOf w) ++ map trim bs).
Proof.
  intros Hs Hall. revert w Hs. cbv zeta.
  induction Hall as [| b bs Hb _ IH]; intros w Hs.
  - simpl. rewrite app_nil_r, withBeats_same. auto.
  - change (beatLoop (b :: bs)) with (Submit b :: Submit "yes" :: beatLoop bs).
    rewrite !run_cons.
    destruct (beat_round w b Hs Hb) as [H1 H2]. cbv zeta in H1, H2.
    rewrite !run_cons in H1, H2. unfold run at 1, foldl in H1.
    unfold run at 1, foldl in H2.
    destruct (IH _ H1) as [K1 K2]. split; [exact K1 |].
    rewrite K2, H2. cbn [beats withBeats map]. rewrite <- app_assoc.
    reflexivity.
Qed.

Lemma X15_witness :
  (step (ui initialSession) = STEPS !! "BEAT"
   /\ Forall accepted [" dawn"; "no"; "dawn"])
  /\ beats (storyOf (run (beatLoop [" dawn"; "no"; "dawn"]) initialSession))
     = ["dawn"; "no"; "dawn"].
Proof.
  assert (H1 : step (ui initialSession) = STEPS !! "BEAT") by reflexivity.
  assert (H2 : Forall accepted [" dawn"; "no"; "dawn"])
    by (repeat constructor; vm_compute; discriminate).
  split; [auto |].
  rewrite (proj2 (X15_beat_loop_collects_in_order _ initialSession H1 H2)).
  reflexivity.
Defined.

(** ** Entering a character in the conversation (X16) *)

Lemma name_taken (w : Session) (n : string) :
  step (ui w) = STEPS !! "CHARACTER_NAME" ->
  accepted n ->
  dispatch (Submit n) w
  = mkSession
      (setUserInput ""
         (setStep (STEPS !! "CHARACTER_DESCRIPTION")
            (setCurrentPrompt "Enter character description:"
               (say "Now enter the character's description:"
                  (setCurrentCharName (trim n)
                     (echo (trim n) (setUserInput n (ui w))))))))
      (inFlight w) (requests w).
Proof.
  intros Hs [He Hn]. unfold dispatch.
  rewrite handleSend_CHARACTER_NAME by assumption. reflexivity.
Qed.

Lemma character_entered (w : Session) (n d : string) :
  step (ui w) = STEPS !! "CHARACTER_NAME" ->
  accepted n ->
  accepted d ->
  run [Submit n; Submit d] w
  = mkSession
      (setUserInput ""
         (setStep (STEPS !! "CHARACTERS")
            (setCurrentPrompt "Add another character? (yes/no)"
               (say "Character saved. Do you want to add another character? (yes/no)"
                  (setData_fn (fun prev =>
                     withCharacters prev
                       (characters prev ++
                          [mkCharacter (trim n) (trim d)
                             (colorAt (length (characters prev)))]))
                     (echo (trim d)
                        (setUserInput d
                           (setUserInput ""
                              (setStep (STEPS !! "CHARACTER_DESCRIPTION")
                                 (setCurrentPrompt "Enter character description:"
                                    (say "Now enter the character's description:"
                                       (setCurrentCharName (trim n)
                                          (echo (trim n)
                                             (setUserInput n (ui w)))))))))))))))
      (inFlight w) (requests w).
Proof.
  intros Hs Hn [Hd1 Hd2]. rewrite !run_cons. unfold run, foldl.
  rewrite (name_taken w n Hs Hn).
  unfold dispatch.
  rewrite handleSend_CHARACTER_DESCRIPTION.
  - reflexivity.
  - exact Hd1.
  - exact Hd2.
  - reflexivity.
Qed.

(** X16.  A character is entered in two inputs: the name given at
    CHARACTER_NAME is kept aside and the description given next appends the
    character with that name, both trimmed, and the palette colour at the
    current number of characters.  The step is then [undefined], and the
    branch written for [STEPS.CHARACTERS] is the one that answers: "yes" goes
    back to CHARACTER_NAME, any other accepted input goes on to SETTING, and
    neither changes the parameters. *)
Theorem X16_character_entry_and_loop (w : Session) (n d : string) :
  step (ui w) = STEPS !! "CHARACTER_NAME" ->
  accepted n ->
  accepted d ->
  let w1 := run [Submit n; Submit d] w in
  storyOf w1
  = withCharacters (storyOf w)
      (characters (storyOf w)
         ++ [mkCharacter (trim n) (trim d)
               (colorAt (length (characters (storyOf w))))])
  /\ step (ui w1) = None
  /\ (forall a, isYes a ->
        step (ui (dispatch (Submit a) w1)) = STEPS !! "CHARACTER_NAME"
        /\ storyOf (dispatch (Submit a) w1) = storyOf w1)
  /\ (forall a, accepted a -> ~ isYes a ->
        step (ui (dispatch (Submit a) w1)) = STEPS !! "SETTING"
        /\ storyOf (dispatch (Submit a) w1) = storyOf w1).
Proof.
  intros Hs Hn Hd. cbv zeta. rewrite (character_entered w n d Hs Hn Hd).
  split; [reflexivity |]. split; [reflexivity |]. split.
  - intros a Ha. unfold dispatch.
    rewrite handleSend_CHARACTERS_yes.
    + cbn [userInput setUserInput].
      generalize (trim a), (trim n), (trim d). intros ta tn td.
      split; vm_compute; reflexivity.
    + exact (command_not_empty _ "yes" Ha eq_refl).
    + cbn [userInput setUserInput]. unfold isYes in Ha. rewrite Ha. discriminate.
    + reflexivity.
    + exact Ha.
  - intros a [Ha1 Ha2] Hny. unfold dispatch.
    rewrite handleSend_CHARACTERS_else.
    + cbn [userInput setUserInput].
      generalize (trim a), (trim n), (trim d). intros ta tn td.
      split; vm_compute; reflexivity.
    + exact Ha1.
    + exact Ha2.
    + reflexivity.
    + exact Hny.
Qed.

Lemma X16_witness :
  let w := run [Submit "dawn"; Submit "no"] initialSession in
  (step (ui w) = STEPS !! "CHARACTER_NAME" /\ accepted " Ana " /\ accepted "A pilot")
  /\ characters (storyOf (run [Submit " Ana "; Submit "A pilot"] w))
     = [mkCharacter "Ana" "A pilot" "#f44336"].
Proof.
  cbv zeta.
  match goal with |- (?A /\ ?B /\ ?C) /\ _ =>
    assert (H1 : A) by (vm_compute; reflexivity);
    assert (H2 : B) by (split; [reflexivity | vm_compute; discriminate]);
    assert (H3 : C) by (split; [reflexivity | vm_compute; discriminate])
  end.
  split; [auto |].
  rewrite (proj1 (X16_character_entry_and_loop _ " Ana " "A pilot" H1 H2 H3)).
  vm_compute. reflexivity.
Defined.

(** ** The summary at STYLE (X17) *)

(** X17.  The summary message sent after the style is entered is built from
    the parameters as they were before that input: it lists the beats,
    character names, setting and genre, and as style the one stored before,
    not the one just typed, which reaches the parameters only afterwards.
    The step becomes CONFIRM. *)
Theorem X17_summary_shows_previous_style (w : Session) (input : string) :
  step (ui w) = STEPS !! "STYLE" ->
  accepted input ->
  let w' := dispatch (Submit input) w in
  step (ui w') = STEPS !! "CONFIRM"
  /\ storyOf w' = withStyle (storyOf w) (trim input)
  /\ messages (ui w')
     = messages (ui w)
         ++ [ mkMessage user (trim input);
              mkMessage bot (summaryText (storyOf w)) ]
  /\ exists before after,
       summaryText (storyOf w)
       = before +:+ "Style: " +:+ style (storyOf w) +:+ after.
Proof.
  intros Hs [He Hn]. cbv zeta. unfold dispatch.
  rewrite handleSend_STYLE by assumption.
  split; [reflexivity |]. split; [reflexivity |]. split.
  - simpl. rewrite <- app_assoc. reflexivity.
  - exists (nl +:+ "All parameters saved." +:+ nl +:+ "Beats:" +:+ nl
            +:+ join nl (imap (fun idx beat => ofNat (idx + 1) +:+ ". " +:+ beat)
                           (beats (storyOf w)))
            +:+ nl +:+ "Characters: " +:+ join ", " (map name (characters (storyOf w)))
            +:+ nl +:+ "Setting: " +:+ setting (storyOf w)
            +:+ nl +:+ "Genre: " +:+ genre (storyOf w) +:+ nl).
    exists (nl +:+ nl +:+ "Generate your story? (yes/no)" +:+ nl +:+ "      ").
    unfold summaryText. rewrite !append_associative. reflexivity.
Qed.

Lemma X17_witness :
  let w := run [Submit "dawn"; Submit "no"; Submit "Ana"; Submit "A pilot";
                Submit "no"; Submit "A ship"; Submit "Sci-Fi"] initialSession in
  (step (ui w) = STEPS !! "STYLE" /\ accepted "Tense")
  /\ style (storyOf w) = ""
  /\ last (messages (ui (dispatch (Submit "Tense") w)))
     = Some (mkMessage bot (summaryText (storyOf w))).
Proof.
  cbv zeta.
  match goal with |- (?A /\ ?B) /\ _ =>
    assert (H1 : A) by (vm_compute; reflexivity);
    assert (H2 : B) by (split; [reflexivity | vm_compute; discriminate])
  end.
  split; [auto |]. split; [vm_compute; reflexivity |].
  rewrite (proj1 (proj2 (proj2 (X17_summary_shows_previous_style _ "Tense" H1 H2)))).
  rewrite last_app. reflexivity.
Defined.

(** ** No way forward from GENERATE or EXTEND (X18) *)

Lemma waiting_step (w : Session) (input : string) :
  step (ui w) = STEPS !! "GENERATE" \/ step (ui w) = STEPS !! "EXTEND" ->
  ~ isStartOver input ->
  let w' := dispatch (Submit input) w in
  step (ui w') = step (ui w)
  /\ storyOf w' = storyOf w
  /\ generatedStory (ui w') = generatedStory (ui w)
  /\ requests w' = requests w
  /\ inFlight w' = inFlight w.
Proof.
  intros Hs Hn. cbv zeta. unfold dispatch.
  destruct (isEmpty (trim input)) eqn:He.
  - rewrite handleSend_ignored by exact He. repeat split; reflexivity.
  - rewrite handleSend_no_branch by assumption. repeat split; reflexivity.
Qed.

(** X18.  Once the step is GENERATE or EXTEND the conversation offers no way
    forward and no retry: whatever is typed, any number of times, short of
    the reset command, the step, the parameters and the stored story stay as
    they are and no request is sent.  After a failed call this means that the
    session stays at GENERATE until it is reset. *)
Theorem X18_no_progress_after_generate (inputs : list string) (w : Session) :
  step (ui w) = STEPS !! "GENERATE" \/ step (ui w) = STEPS !! "EXTEND" ->
  Forall (fun i => ~ isStartOver i) inputs ->
  let w' := run (map Submit inputs) w in
  step (ui w') = step (ui w)
  /\ storyOf w' = storyOf w
  /\ generatedStory (ui w') = generatedStory (ui w)
  /\ requests w' = requests w
  /\ inFlight w' = inFlight w.
Proof.
  intros Hs Hall. revert w Hs. cbv zeta.
  induction Hall as [| i inputs Hi _ IH]; intros w Hs.
  - repeat split; reflexivity.
  - rewrite map_cons, run_cons.
    destruct (waiting_step w i Hs Hi) as (H1 & H2 & H3 & H4 & H5).
    cbv zeta in *.
    destruct (IH (dispatch (Submit i) w)) as (K1 & K2 & K3 & K4 & K5).
    { rewrite H1. exact Hs. }
    rewrite K1, K2, K3, K4, K5. auto.
Qed.

Lemma X18_witness :
  ((step (ui afterFailure) = STEPS !! "GENERATE"
    \/ step (ui afterFailure) = STEPS !! "EXTEND")
   /\ Forall (fun i => ~ isStartOver i) ["yes"; "try again"; " "; "generate"])
  /\ let w' := run (map Submit ["yes"; "try again"; " "; "generate"]) afterFailure in
     step (ui w') = STEPS !! "GENERATE" /\ requests w' = requests afterFailure.
Proof.
  assert (H1 : step (ui afterFailure) = STEPS !! "GENERATE"
               \/ step (ui afterFailure) = STEPS !! "EXTEND")
    by (left; vm_compute; reflexivity).
  assert (H2 : Forall (fun i => ~ isStartOver i)
                 ["yes"; "try again"; " "; "generate"])
    by (repeat constructor; vm_compute; discriminate).
  split; [auto |].
  pose proof (X18_no_progress_after_generate _ afterFailure H1 H2) as K.
  cbv zeta in K. destruct K as (K1 & _ & _ & K4 & _).
  split; [rewrite K1; vm_compute; reflexivity | exact K4].
Defined.

(** ** The palette (X19) *)

(** X19.  The colour picked for a list of [i] characters and the one picked
    for a list of [j] characters are the same exactly when [i] and [j] leave
    the same remainder modulo 5: the five palette entries are distinct and
    the choice repeats with period five. *)
Theorem X19_colour_repeats_with_period_five (i j : nat) :
  colorAt i = colorAt j <-> i mod 5 = j mod 5.
Proof.
  unfold colorAt. change (length characterColors) with 5.
  pose proof (Nat.mod_upper_bound i 5 ltac:(discriminate)) as Hi.
  pose proof (Nat.mod_upper_bound j 5 ltac:(discriminate)) as Hj.
  destruct (i mod 5) as [| [| [| [| [| ?]]]]]; try lia;
    destruct (j mod 5) as [| [| [| [| [| ?]]]]]; try lia;
    simpl; split; intros H; first [reflexivity | discriminate H].
Qed.

(** ** What the reset leaves behind (X20) *)

(** X20.  Besides the step, the parameters, the log and the stored story,
    the reset puts back the controls (temperature 0.7, 1000 words), the
    layout "both", the prompt hint, the staged character name and the input
    box.  It does not touch the loading flag, the calls in flight, or the
    fields of the parameters panel: an open editor and its staged text, and
    a half typed new beat or character, survive the reset. *)
Theorem X20_reset_is_partial (w : Session) (input : string) :
  isStartOver input ->
  let w' := dispatch (Submit input) w in
  temperature (ui w') = (7 # 10)%Q
  /\ desiredLength (ui w') = 1000%Z
  /\ layoutMode (ui w') = both
  /\ currentPrompt (ui w') = "Type your message here..."
  /\ currentCharName (ui w') = ""
  /\ userInput (ui w') = ""
  /\ loading (ui w') = loading (ui w)
  /\ inFlight w' = inFlight w
  /\ panelState (ui w') = panelState (ui w).
Proof.
  intros H. cbv zeta. rewrite (reset_at_any_step w input H).
  repeat split; reflexivity.
Qed.

Lemma X20_witness :
  let w := run [ToggleEdit "genre"; TypeEdit "genre" "Noir"; Submit "yes"] atConfirm in
  isStartOver " Start Over "
  /\ let w' := dispatch (Submit " Start Over ") w in
     loading (ui w') = loading (ui w)
     /\ panelState (ui w') = panelState (ui w).
Proof.
  cbv zeta.
  assert (H : isStartOver " Start Over ") by reflexivity.
  split; [exact H |].
  pose proof (X20_reset_is_partial
                (run [ToggleEdit "genre"; TypeEdit "genre" "Noir"; Submit "yes"]
                   atConfirm) " Start Over " H) as K.
  cbv zeta in K. destruct K as (_ & _ & _ & _ & _ & _ & K7 & _ & K9).
  split; [exact K7 | exact K9].
Defined.
